(** * A shallow embedding of the book service (main.py)

    The service is five FastAPI routes over one SQLAlchemy table, [books].
    The embedding has three layers, leaf first:

    - the table and the statements the ORM emits against it;
    - the SQLAlchemy session as a state-and-exception monad: a unit of work
      (pending inserts, loaded objects, pending deletes) that reaches the
      table only at [session_commit];
    - the handlers of main.py, written in that monad line by line, and the
      routes around them (request validation, the session dependency, and
      the translation of handler results and exceptions into responses).

    Integers are Python's unbounded [int], hence [Z].  SQLite holds an
    integer in 64 bits: a Python int outside that range cannot be bound to
    a statement, which the driver answers with OverflowError ([int64],
    [session_get], [session_execute_select]).  Row ids are handed out as
    SQLite does while the largest id in use is below 2^63 - 1; at that id
    SQLite turns to random ids, which is outside this model, and the
    theorems that depend on the id handed out say so in a hypothesis.
    Strings are byte strings (the UTF-8 text of the source file).  The
    table is taken to exist, as it does after POST /setup. *)

From Stdlib Require Import ZArith List String Bool Lia.
From Stdlib Require Import DecimalString DecimalZ DecimalPos Sorted.
Import ListNotations.
Local Open Scope string_scope.
Local Open Scope list_scope.
Local Open Scope Z_scope.

(** ** Records of the source *)

(** class BookModel(Base): one row of [books], and the ORM object mapped to
    it once it has a primary key. *)
Module BookModel.
Record t : Type := mk { id : Z; title : string; author : string }.
End BookModel.

(** class BookSchema(BaseModel): body of POST /books and its response. *)
Module BookSchema.
Record t : Type := mk { title : string; author : string }.
End BookSchema.

(** class BookGetSchema(BaseModel): element of the list response and the
    response model of PUT. *)
Module BookGetSchema.
Record t : Type := mk { id : Z; title : string; author : string }.
End BookGetSchema.

(** class BookUpdateSchema(BaseModel): both fields default to None. *)
Module BookUpdateSchema.
Record t : Type := mk { title : option string; author : option string }.
End BookUpdateSchema.

(** class PaginationParams(BaseModel). *)
Module PaginationParams.
Record t : Type := mk { limit : Z; offset : Z }.
End PaginationParams.

(** ** JSON

    The values of request and response bodies (numbers with a fraction do
    not occur in this service and are left out). *)
Unset Elimination Schemes.
Inductive json : Type :=
| JNull
| JBool (b : bool)
| JInt (n : Z)
| JStr (s : string)
| JList (items : list json)
| JObj (fields : list (string * json)).
Set Elimination Schemes.

(** d.get(key) on the fields of an object; as in a Python dict read from
    JSON text, the last binding of a key is the one that counts. *)
Fixpoint dict_get (key : string) (fields : list (string * json)) : option json :=
  match fields with
  | [] => None
  | (k, v) :: rest =>
      match dict_get key rest with
      | Some v' => Some v'
      | None => if String.eqb k key then Some v else None
      end
  end.

Definition json_get (key : string) (v : json) : option json :=
  match v with
  | JObj fields => dict_get key fields
  | _ => None
  end.

(** ** The table

    Rows are kept in the order a scan returns them. *)

Definition Table : Type := list BookModel.t.

Definition has_id (k : Z) (r : BookModel.t) : bool := BookModel.id r =? k.

(** The integers SQLite holds and the driver binds: 64 bits, signed. *)
Definition int64 (n : Z) : bool :=
  (-9223372036854775808 <=? n) && (n <? 9223372036854775808).

(** SELECT ... WHERE id = k, the key bound as a 64-bit integer: the row of
    that id, and no row under a key that cannot be bound. *)
Definition select_by_pk (k : Z) (rows : Table) : option BookModel.t :=
  if int64 k then find (has_id k) rows else None.

(** The largest row id in use, if any. *)
Fixpoint max_rowid (rows : Table) : option Z :=
  match rows with
  | [] => None
  | r :: rest =>
      Some (match max_rowid rest with
            | None => BookModel.id r
            | Some m => Z.max (BookModel.id r) m
            end)
  end.

(** The id SQLite gives to a row inserted without one into a table whose
    INTEGER PRIMARY KEY column aliases the row id: one more than the largest
    in use, and 1 in an empty table.  (This is SQLite's rule while the
    largest id in use is below 2^63 - 1.) *)
Definition next_rowid (rows : Table) : Z :=
  match max_rowid rows with
  | None => 1
  | Some m => m + 1
  end.

(** INSERT INTO books (title, author) VALUES (t, a): the new row has the
    largest id, so a scan meets it last. *)
Definition insert_row (new_book : string * string) (rows : Table) : Table :=
  rows ++ [BookModel.mk (next_rowid rows) (fst new_book) (snd new_book)].

(** A loaded object: the attribute values as last read from the table and
    the values the Python object holds now. *)
Record Loaded : Type := mkLoaded { committed : BookModel.t; current : BookModel.t }.

(** UPDATE books SET <the attributes that changed> WHERE id = <pk> *)
Definition update_row (o : Loaded) (rows : Table) : Table :=
  let old := committed o in
  let new := current o in
  map (fun r =>
         if has_id (BookModel.id old) r then
           BookModel.mk (BookModel.id r)
             (if String.eqb (BookModel.title old) (BookModel.title new)
              then BookModel.title r else BookModel.title new)
             (if String.eqb (BookModel.author old) (BookModel.author new)
              then BookModel.author r else BookModel.author new)
         else r)
      rows.

(** DELETE FROM books WHERE id = k *)
Definition delete_row (k : Z) (rows : Table) : Table :=
  filter (fun r => negb (has_id k r)) rows.

(** The primary key constraint: no two rows share an id. *)
Definition unique_ids (rows : Table) : Prop := NoDup (map BookModel.id rows).

(** SELECT ... FROM books LIMIT l OFFSET o, with SQLite's reading of the two
    numbers: a negative limit is no limit, a negative offset is 0. *)
Definition select_limit_offset (l o : Z) (rows : Table) : Table :=
  let rest := skipn (Z.to_nat o) rows in
  if l <? 0 then rest else firstn (Z.to_nat l) rest.

(** An offset that still points at a row of the table.  A table has fewer
    than 2^63 rows, so such an offset is within 64 bits. *)
Definition within_rows (o : Z) (rows : Table) : bool :=
  (0 <=? o) && (o <? Z.of_nat (List.length rows)).

(** ** The session *)

Record Session : Type := mkSession {
  books : Table;                   (* the table as committed *)
  new : list (string * string);    (* objects added, not yet inserted *)
  identity_map : list Loaded;      (* objects loaded by primary key *)
  deleted : list Z                 (* primary keys marked for deletion *)
}.

(** new_async_session(): a session on the current table, nothing pending. *)
Definition new_async_session (db : Table) : Session :=
  mkSession db [] [] [].

Inductive Exception : Type :=
| HTTPException (status_code : Z) (detail : string)
| InvalidRequestError
| OverflowError.       (* Python int too large to convert to SQLite INTEGER *)

Inductive Outcome (A : Type) : Type :=
| Return (a : A)
| Raise (e : Exception).
Arguments Return {A} a.
Arguments Raise {A} e.

(** A computation inside a request: it may change the session and either
    returns or raises.  The session survives a raise, so that what was
    committed before it stays committed. *)
Definition M (A : Type) : Type := Session -> Outcome A * Session.

Definition ret {A} (a : A) : M A := fun s => (Return a, s).

Definition raise {A} (e : Exception) : M A := fun s => (Raise e, s).

Definition bind {A B} (m : M A) (k : A -> M B) : M B :=
  fun s =>
    match m s with
    | (Return a, s') => k a s'
    | (Raise e, s') => (Raise e, s')
    end.

Declare Scope session_scope.
Delimit Scope session_scope with session.
Notation "x <- m ;; k" := (bind m (fun x => k))
  (at level 100, m at next level, right associativity) : session_scope.
Notation "m ;; k" := (bind m (fun _ => k))
  (at level 100, right associativity) : session_scope.
Local Open Scope session_scope.

(** A reference to a loaded Python object is its primary key. *)
Definition Ref : Type := Z.

Definition loaded_as (k : Z) (o : Loaded) : bool := has_id k (committed o).

(** session.add(new_book) *)
Definition session_add (new_book : string * string) : M unit :=
  fun s => (Return tt,
            mkSession (books s) (new s ++ [new_book]) (identity_map s) (deleted s)).

(** session.get(BookModel, k): the object already loaded under k, else the
    row of the table, which is then loaded; None when there is none.  The
    key is bound to the SELECT, which fails for a key outside 64 bits. *)
Definition session_get (k : Z) : M (option Ref) :=
  fun s =>
    match find (loaded_as k) (identity_map s) with
    | Some _ => (Return (Some k), s)
    | None =>
        if int64 k then
          match select_by_pk k (books s) with
          | Some r =>
              (Return (Some k),
               mkSession (books s) (new s)
                 (mkLoaded r r :: identity_map s) (deleted s))
          | None => (Return None, s)
          end
        else (Raise OverflowError, s)
    end.

(** Attribute assignment on a loaded object. *)
Definition set_attr (f : BookModel.t -> BookModel.t) (book : Ref) : M unit :=
  fun s =>
    (Return tt,
     mkSession (books s) (new s)
       (map (fun o => if loaded_as book o
                      then mkLoaded (committed o) (f (current o)) else o)
            (identity_map s))
       (deleted s)).

(** book.title = v *)
Definition set_title (book : Ref) (v : string) : M unit :=
  set_attr (fun b => BookModel.mk (BookModel.id b) v (BookModel.author b)) book.

(** book.author = v *)
Definition set_author (book : Ref) (v : string) : M unit :=
  set_attr (fun b => BookModel.mk (BookModel.id b) (BookModel.title b) v) book.

(** Reading the attributes of a loaded object. *)
Definition deref (book : Ref) : M BookModel.t :=
  fun s =>
    match find (loaded_as book) (identity_map s) with
    | Some o => (Return (current o), s)
    | None => (Raise InvalidRequestError, s)
    end.

(** session.delete(book) *)
Definition session_delete (book : Ref) : M unit :=
  fun s => (Return tt,
            mkSession (books s) (new s) (identity_map s) (deleted s ++ [book])).

(** The flush of the unit of work: updates of the loaded objects, then
    inserts, then deletes. *)
Definition flush (s : Session) : Table :=
  let updated := fold_left (fun rows o => update_row o rows) (identity_map s) (books s) in
  let inserted := fold_left (fun rows b => insert_row b rows) (new s) updated in
  fold_left (fun rows k => delete_row k rows) (deleted s) inserted.

Definition is_deleted (s : Session) (o : Loaded) : bool :=
  existsb (fun k => loaded_as k o) (deleted s).

(** session.commit(): flush and make it durable.  With
    expire_on_commit=False the loaded objects keep their attributes, which
    are now the committed ones; deleted objects leave the session. *)
Definition session_commit : M unit :=
  fun s =>
    (Return tt,
     mkSession (flush s) []
       (map (fun o => mkLoaded (current o) (current o))
            (filter (fun o => negb (is_deleted s o)) (identity_map s)))
       []).

(** session.refresh(book): read the row again into the object. *)
Definition session_refresh (book : Ref) : M unit :=
  fun s =>
    match select_by_pk book (books s) with
    | Some r =>
        (Return tt,
         mkSession (books s) (new s)
           (map (fun o => if loaded_as book o then mkLoaded r r else o)
                (identity_map s))
           (deleted s))
    | None => (Raise InvalidRequestError, s)
    end.

(** session.execute(select(BookModel).limit(l).offset(o)) followed by
    result.scalars().all().  Both numbers are bound to the SELECT, which
    fails for a number outside 64 bits; an offset that points at a row is
    never such a number. *)
Definition session_execute_select (l o : Z) : M (list BookModel.t) :=
  fun s =>
    if int64 l && (int64 o || within_rows o (books s))
    then (Return (select_limit_offset l o (books s)), s)
    else (Raise OverflowError, s).

(** ** The handlers *)

Definition not_found : string := "Книга не найдена".

(** Python's str() of an int. *)
Definition str (n : Z) : string := NilZero.string_of_int (Z.to_int n).

(** f"Книга с id={book_id} удалена" *)
Definition deleted_detail (book_id : Z) : string :=
  ("Книга с id=" ++ str book_id ++ " удалена")%string.

(** {"detail": ...} *)
Definition detail_json (d : string) : json := JObj [("detail", JStr d)].

(** async def add_book(book, session) -> BookSchema *)
Definition add_book (book : BookSchema.t) : M BookSchema.t :=
  let new_book := (BookSchema.title book, BookSchema.author book) in
  session_add new_book ;;
  session_commit ;;
  ret book.

(** async def get_books(session, pagination) -> list[BookGetSchema] *)
Definition get_books (pagination : PaginationParams.t) : M (list BookModel.t) :=
  session_execute_select (PaginationParams.limit pagination)
                         (PaginationParams.offset pagination).

(** async def delete_book(book_id, session) *)
Definition delete_book (book_id : Z) : M json :=
  book <- session_get book_id ;;
  match book with
  | None => raise (HTTPException 404 not_found)
  | Some book =>
      session_delete book ;;
      session_commit ;;
      ret (detail_json (deleted_detail book_id))
  end.

(** async def update_book(book_id, book_data, session) *)
Definition update_book (book_id : Z) (book_data : BookUpdateSchema.t) : M BookModel.t :=
  book <- session_get book_id ;;
  match book with
  | None => raise (HTTPException 404 not_found)
  | Some book =>
      match BookUpdateSchema.title book_data with
      | Some v => set_title book v
      | None => ret tt
      end ;;
      match BookUpdateSchema.author book_data with
      | Some v => set_author book v
      | None => ret tt
      end ;;
      session_commit ;;
      session_refresh book ;;
      deref book
  end.

(** ** Requests and responses *)

Inductive Response : Type :=
| JSONResponse (status_code : Z) (content : json)
| RequestValidationError (loc : list string)     (* status 422 *)
| InternalServerError.                           (* status 500 *)

(** What a field annotation accepts. *)
Inductive Checked (A : Type) : Type :=
| Valid (a : A)
| Invalid.
Arguments Valid {A} a.
Arguments Invalid {A}.

(** title: str -- required, a JSON string, taken as it is. *)
Definition required_str (v : option json) : Checked string :=
  match v with
  | Some (JStr s) => Valid s
  | _ => Invalid
  end.

(** title: str | None = None -- absent and null give None. *)
Definition optional_str (v : option json) : Checked (option string) :=
  match v with
  | None => Valid None
  | Some JNull => Valid None
  | Some (JStr s) => Valid (Some s)
  | Some _ => Invalid
  end.

(** The names of the fields that failed. *)
Definition failed {A} (name : string) (c : Checked A) : list string :=
  match c with
  | Valid _ => []
  | Invalid => [name]
  end.

(** book: BookSchema, read from the request body. *)
Definition BookSchema_validate (body : json) : list string + BookSchema.t :=
  match body with
  | JObj fields =>
      let title := required_str (dict_get "title" fields) in
      let author := required_str (dict_get "author" fields) in
      match title, author with
      | Valid t, Valid a => inr (BookSchema.mk t a)
      | _, _ => inl (failed "title" title ++ failed "author" author)
      end
  | _ => inl ["body"]
  end.

(** book_data: BookUpdateSchema, read from the request body. *)
Definition BookUpdateSchema_validate (body : json) : list string + BookUpdateSchema.t :=
  match body with
  | JObj fields =>
      let title := optional_str (dict_get "title" fields) in
      let author := optional_str (dict_get "author" fields) in
      match title, author with
      | Valid t, Valid a => inr (BookUpdateSchema.mk t a)
      | _, _ => inl (failed "title" title ++ failed "author" author)
      end
  | _ => inl ["body"]
  end.

(** BookSchema as a response model. *)
Definition BookSchema_dump (b : BookSchema.t) : json :=
  JObj [("title", JStr (BookSchema.title b)); ("author", JStr (BookSchema.author b))].

(** BookGetSchema as a response model: built from the attributes of the
    returned object, then dumped. *)
Definition BookGetSchema_of (b : BookModel.t) : BookGetSchema.t :=
  BookGetSchema.mk (BookModel.id b) (BookModel.title b) (BookModel.author b).

Definition BookGetSchema_dump (b : BookGetSchema.t) : json :=
  JObj [("id", JInt (BookGetSchema.id b));
        ("title", JStr (BookGetSchema.title b));
        ("author", JStr (BookGetSchema.author b))].

Definition book_json (b : BookModel.t) : json :=
  BookGetSchema_dump (BookGetSchema_of b).

(** async def get_session(): the endpoint runs in a session of its own on
    the current table; when the session is closed only what was committed
    remains. *)
Definition get_session {A} (endpoint : M A) (db : Table) : Outcome A * Table :=
  let (r, s) := endpoint (new_async_session db) in (r, books s).

(** The framework's answer to what the endpoint did: status 200 with the
    result under its response model, the response of an HTTPException, or a
    server error for any other exception. *)
Definition respond {A} (dump : A -> json) (r : Outcome A * Table) : Response * Table :=
  match r with
  | (Return a, db) => (JSONResponse 200 (dump a), db)
  | (Raise (HTTPException status_code detail), db) =>
      (JSONResponse status_code (detail_json detail), db)
  | (Raise InvalidRequestError, db) => (InternalServerError, db)
  | (Raise OverflowError, db) => (InternalServerError, db)
  end.

(** Field(default, ge=..., le=...) on an int *)
Record Field : Type := mkField { default : Z; ge : option Z; le : option Z }.

Definition bound_ok (cmp : Z -> Z -> bool) (b : option Z) (n : Z) : bool :=
  match b with
  | Some m => cmp m n
  | None => true
  end.

(** @app.post("/books") *)
Definition POST_books (body : json) (db : Table) : Response * Table :=
  match BookSchema_validate body with
  | inl loc => (RequestValidationError loc, db)
  | inr book => respond BookSchema_dump (get_session (add_book book) db)
  end.

(** @app.delete("/books/{book_id}") *)
Definition DELETE_books (book_id : Z) (db : Table) : Response * Table :=
  respond (fun content => content) (get_session (delete_book book_id) db).

(** @app.put("/books/{book_id}", response_model=BookGetSchema) *)
Definition PUT_books (book_id : Z) (body : json) (db : Table) : Response * Table :=
  match BookUpdateSchema_validate body with
  | inl loc => (RequestValidationError loc, db)
  | inr book_data => respond book_json (get_session (update_book book_id book_data) db)
  end.

Section Query.

(** How the framework reads an int out of the text of a query parameter;
    None when the text is not an int. *)
Variable parse_int : string -> option Z.

(** One query parameter against its Field: the default when the parameter
    is absent, else the int it holds if that is within the bounds. *)
Definition validate_field (f : Field) (raw : option string) : Checked Z :=
  match raw with
  | None => Valid (default f)
  | Some text =>
      match parse_int text with
      | None => Invalid
      | Some n =>
          if bound_ok Z.leb (ge f) n && bound_ok Z.geb (le f) n
          then Valid n else Invalid
      end
  end.

(** limit: int = Field(20, ge=1, le=100) *)
Definition limit_field : Field := mkField 20 (Some 1) (Some 100).

(** offset: int = Field(0, ge=0) *)
Definition offset_field : Field := mkField 0 (Some 0) None.

(** pagination: PaginationDep *)
Definition PaginationParams_validate (limit offset : option string)
  : list string + PaginationParams.t :=
  let l := validate_field limit_field limit in
  let o := validate_field offset_field offset in
  match l, o with
  | Valid l, Valid o => inr (PaginationParams.mk l o)
  | _, _ => inl (failed "limit" l ++ failed "offset" o)
  end.

(** @app.get("/books") *)
Definition GET_books (limit offset : option string) (db : Table) : Response * Table :=
  match PaginationParams_validate limit offset with
  | inl loc => (RequestValidationError loc, db)
  | inr pagination =>
      respond (fun rows => JList (map book_json rows))
              (get_session (get_books pagination) db)
  end.

End Query.

(** Decimal text as an int, the reading used in the examples below. *)
Definition decimal (text : string) : option Z :=
  option_map Z.of_int (NilZero.int_of_string text).

(** The attributes of a loaded object after the two conditional assignments
    of update_book. *)
Definition assigned (book_data : BookUpdateSchema.t) (book : BookModel.t) : BookModel.t :=
  BookModel.mk (BookModel.id book)
    (match BookUpdateSchema.title book_data with
     | Some v => v
     | None => BookModel.title book
     end)
    (match BookUpdateSchema.author book_data with
     | Some v => v
     | None => BookModel.author book
     end).

(** ** The schema

    POST /setup works on the database file rather than on the rows: the
    table [books] may be missing from it. *)
Definition Database : Type := option Table.

(** Base.metadata.drop_all: drops [books] if it is there. *)
Definition drop_all (d : Database) : Database := None.

(** Base.metadata.create_all: creates [books], empty, unless it is there. *)
Definition create_all (d : Database) : Database :=
  match d with
  | None => Some []
  | Some rows => Some rows
  end.

(** async def setup_database(): both in the one transaction of
    engine.begin(). *)
Definition setup_database (d : Database) : Database :=
  let d := drop_all d in
  create_all d.

(** @app.post("/setup"); the endpoint returns None. *)
Definition POST_setup (d : Database) : Response * Database :=
  (JSONResponse 200 JNull, setup_database d).

(** ** The application

    app = FastAPI(): the five routes, by method and path, serving one
    request after the other on a database in which the table exists. *)
Inductive Request : Type :=
| Post_setup
| Post_books (body : json)
| Get_books (limit offset : option string)
| Put_books (book_id : Z) (body : json)
| Delete_books (book_id : Z).

Section App.

Variable parse_int : string -> option Z.

Definition app (request : Request) (db : Table) : Response * Table :=
  match request with
  | Post_setup =>
      match POST_setup (Some db) with
      | (response, Some db') => (response, db')
      | (response, None) => (response, db)
      end
  | Post_books body => POST_books body db
  | Get_books limit offset => GET_books parse_int limit offset db
  | Put_books book_id body => PUT_books book_id body db
  | Delete_books book_id => DELETE_books book_id db
  end.

(** The table after a sequence of requests. *)
Definition serve (requests : list Request) (db : Table) : Table :=
  fold_left (fun db request => snd (app request db)) requests db.

End App.

(** Ids that SQLite can hold and that leave it an id to hand out by its
    rule of the largest id plus one: all below the largest id there is,
    2^63 - 1. *)
Definition below_largest_rowid (rows : Table) : Prop :=
  Forall (fun r => -9223372036854775808 <= BookModel.id r < 9223372036854775807) rows.

(** Rows in strictly ascending order of id. *)
Definition ascending_ids (rows : Table) : Prop :=
  StronglySorted (fun r r' => BookModel.id r < BookModel.id r') rows.

(** Ids as SQLite hands them out from an empty table: from 1 up. *)
Definition positive_ids (rows : Table) : Prop :=
  Forall (fun r => 1 <= BookModel.id r) rows.

(** * Properties *)

(** Runs the session primitives on explicit sessions, leaving the
    statements against the table folded. *)
Ltac run_session :=
  cbv beta iota zeta delta
    [get_session update_book delete_book add_book get_books bind ret raise
     new_async_session books new identity_map deleted committed current
     session_get session_add session_delete session_commit session_refresh
     session_execute_select deref set_title set_author set_attr
     flush is_deleted loaded_as find fold_left map filter existsb negb orb app
     BookModel.id BookModel.title BookModel.author
     BookUpdateSchema.title BookUpdateSchema.author].


(** ** Statements against the table *)

Lemma has_id_eq (k : Z) (r : BookModel.t) :
  has_id k r = true <-> BookModel.id r = k.
Proof. unfold has_id. apply Z.eqb_eq. Qed.

Lemma has_id_neq (k : Z) (r : BookModel.t) :
  has_id k r = false <-> BookModel.id r <> k.
Proof. unfold has_id. apply Z.eqb_neq. Qed.

Lemma int64_spec (n : Z) :
  int64 n = true <-> -9223372036854775808 <= n < 9223372036854775808.
Proof. unfold int64. rewrite andb_true_iff, Z.leb_le, Z.ltb_lt. tauto. Qed.

(** Under a key that can be bound the lookup is a search by id. *)
Lemma select_by_pk_bound (k : Z) (rows : Table) :
  int64 k = true -> select_by_pk k rows = find (has_id k) rows.
Proof. unfold select_by_pk. now intros ->. Qed.

Lemma select_by_pk_unbound (k : Z) (rows : Table) :
  int64 k = false -> select_by_pk k rows = None.
Proof. unfold select_by_pk. now intros ->. Qed.

(** A key that leads to a row can be bound. *)
Lemma select_by_pk_int64 (k : Z) (rows : Table) (r : BookModel.t) :
  select_by_pk k rows = Some r -> int64 k = true.
Proof. unfold select_by_pk. now destruct (int64 k). Qed.

Lemma select_by_pk_id (k : Z) (rows : Table) (r : BookModel.t) :
  select_by_pk k rows = Some r -> BookModel.id r = k.
Proof.
  unfold select_by_pk. destruct (int64 k); [|discriminate].
  intros H. apply find_some in H. now apply has_id_eq.
Qed.

Lemma select_by_pk_In (k : Z) (rows : Table) (r : BookModel.t) :
  select_by_pk k rows = Some r -> In r rows.
Proof.
  unfold select_by_pk. destruct (int64 k); [|discriminate].
  intros H. now apply find_some in H.
Qed.

Lemma find_has_id_None (k : Z) (rows : Table) :
  find (has_id k) rows = None <-> (forall r, In r rows -> BookModel.id r <> k).
Proof.
  split.
  - intros H r Hr. apply has_id_neq. exact (find_none _ _ H r Hr).
  - intros H. induction rows as [|r rows IH]; [reflexivity|].
    simpl. rewrite (proj2 (has_id_neq k r)) by (apply H; now left).
    apply IH. intros r' Hr'. apply H. now right.
Qed.

(** No row has the id: the lookup finds none. *)
Lemma select_by_pk_None (k : Z) (rows : Table) :
  (forall r, In r rows -> BookModel.id r <> k) -> select_by_pk k rows = None.
Proof.
  intros H. unfold select_by_pk. destruct (int64 k); [|reflexivity].
  now apply find_has_id_None.
Qed.

(** The lookup under a key that can be bound finds none: no row has the id. *)
Lemma select_by_pk_None_inv (k : Z) (rows : Table) :
  int64 k = true ->
  select_by_pk k rows = None ->
  forall r, In r rows -> BookModel.id r <> k.
Proof.
  intros Hk H. rewrite (select_by_pk_bound _ _ Hk) in H.
  now apply find_has_id_None.
Qed.

(** A statement that keeps every row's id keeps what a lookup by primary
    key finds, up to that statement. *)
Lemma select_by_pk_map (g : BookModel.t -> BookModel.t) (k : Z) (rows : Table) :
  (forall r, BookModel.id (g r) = BookModel.id r) ->
  select_by_pk k (map g rows) = option_map g (select_by_pk k rows).
Proof.
  intros Hg. unfold select_by_pk. destruct (int64 k); [|reflexivity].
  induction rows as [|r rows IH]; [reflexivity|].
  simpl. replace (has_id k (g r)) with (has_id k r)
    by (unfold has_id; now rewrite Hg).
  destruct (has_id k r); [reflexivity | exact IH].
Qed.

(** An object whose attributes were not touched updates nothing. *)
Lemma update_row_same (r : BookModel.t) (rows : Table) :
  update_row (mkLoaded r r) rows = rows.
Proof.
  unfold update_row. simpl. rewrite !String.eqb_refl.
  rewrite <- (map_id rows) at 2. apply map_ext.
  intros [i t a]. now destruct (has_id _ _).
Qed.

Lemma update_row_ids (o : Loaded) (rows : Table) :
  map BookModel.id (update_row o rows) = map BookModel.id rows.
Proof.
  unfold update_row. rewrite map_map. apply map_ext.
  intros r. now destruct (has_id _ _).
Qed.

Lemma update_row_length (o : Loaded) (rows : Table) :
  List.length (update_row o rows) = List.length rows.
Proof. unfold update_row. apply length_map. Qed.

(** After the update the row under the object's key holds the object's
    attributes. *)
Lemma select_by_pk_update_row (k : Z) (old new : BookModel.t) (rows : Table) :
  select_by_pk k rows = Some old ->
  BookModel.id new = BookModel.id old ->
  select_by_pk k (update_row (mkLoaded old new) rows) = Some new.
Proof.
  intros Hsel Hid. pose proof (select_by_pk_id _ _ _ Hsel) as Hk.
  unfold update_row. rewrite select_by_pk_map.
  - rewrite Hsel. simpl. rewrite (proj2 (has_id_eq _ _) eq_refl).
    destruct old as [i t a], new as [i' t' a']. simpl in *. subst i'.
    f_equal. f_equal.
    + destruct (String.eqb_spec t t'); congruence.
    + destruct (String.eqb_spec a a'); congruence.
  - intros r. now destruct (has_id _ _).
Qed.

(** Rows under other keys are not touched by the update. *)
Lemma select_by_pk_update_other (k : Z) (o : Loaded) (rows : Table) :
  k <> BookModel.id (committed o) ->
  select_by_pk k (update_row o rows) = select_by_pk k rows.
Proof.
  intros Hk. unfold select_by_pk. destruct (int64 k); [|reflexivity].
  unfold update_row.
  induction rows as [|r rows IH]; [reflexivity|].
  simpl. destruct (has_id (BookModel.id (committed o)) r) eqn:Hr.
  - apply has_id_eq in Hr.
    assert (Hkr : has_id k r = false) by (apply has_id_neq; congruence).
    rewrite Hkr. unfold has_id at 1. simpl. fold (has_id k r).
    rewrite Hkr. exact IH.
  - destruct (has_id k r); [reflexivity | exact IH].
Qed.

Lemma select_by_pk_delete_row (k : Z) (rows : Table) :
  select_by_pk k (delete_row k rows) = None.
Proof.
  apply select_by_pk_None. intros r Hr.
  apply filter_In in Hr. destruct Hr as [_ Hr].
  apply has_id_neq. now destruct (has_id k r).
Qed.

Lemma select_by_pk_delete_other (k k' : Z) (rows : Table) :
  k' <> k ->
  select_by_pk k' (delete_row k rows) = select_by_pk k' rows.
Proof.
  intros Hk. unfold select_by_pk. destruct (int64 k'); [|reflexivity].
  induction rows as [|r rows IH]; [reflexivity|].
  simpl. destruct (has_id k r) eqn:Hr; simpl.
  - apply has_id_eq in Hr.
    rewrite (proj2 (has_id_neq k' r)) by congruence. exact IH.
  - destruct (has_id k' r); [reflexivity | exact IH].
Qed.

(** Every id in use is below the next one. *)
Lemma next_rowid_above (rows : Table) (r : BookModel.t) :
  In r rows -> BookModel.id r < next_rowid rows.
Proof.
  unfold next_rowid. induction rows as [|r' rows IH]; [easy|].
  intros Hin. destruct Hin as [Heq | Hr]; simpl.
  - subst r'. destruct (max_rowid rows); lia.
  - specialize (IH Hr). destruct (max_rowid rows) eqn:E; [lia|].
    destruct rows; [easy | discriminate E].
Qed.

Lemma select_by_pk_next_rowid (rows : Table) :
  select_by_pk (next_rowid rows) rows = None.
Proof.
  apply select_by_pk_None. intros r Hr.
  pose proof (next_rowid_above rows r Hr). lia.
Qed.

Lemma insert_row_length (b : string * string) (rows : Table) :
  List.length (insert_row b rows) = S (List.length rows).
Proof. unfold insert_row. rewrite length_app. simpl. lia. Qed.

(** The three statements keep the primary key constraint. *)
Lemma insert_row_unique (b : string * string) (rows : Table) :
  unique_ids rows -> unique_ids (insert_row b rows).
Proof.
  unfold unique_ids, insert_row. intros H. rewrite map_app. simpl.
  apply NoDup_app; [exact H | repeat constructor; easy |].
  intros k Hk [<- | []]. apply in_map_iff in Hk. destruct Hk as (r & Hid & Hr).
  pose proof (next_rowid_above rows r Hr). lia.
Qed.

Lemma update_row_unique (o : Loaded) (rows : Table) :
  unique_ids rows -> unique_ids (update_row o rows).
Proof. unfold unique_ids. now rewrite update_row_ids. Qed.

Lemma delete_row_unique (k : Z) (rows : Table) :
  unique_ids rows -> unique_ids (delete_row k rows).
Proof.
  unfold unique_ids, delete_row. induction rows as [|r rows IH]; [easy|].
  simpl. intros H. inversion H as [|? ? Hnotin Hrest]; subst.
  destruct (negb (has_id k r)); [|now apply IH].
  simpl. constructor; [|now apply IH].
  intros Hin. apply Hnotin. apply in_map_iff in Hin.
  destruct Hin as (r' & Hid & Hr'). apply filter_In in Hr'.
  apply in_map_iff. exists r'. tauto.
Qed.

(** ** What each endpoint does to a fresh session *)

Lemma add_book_run (book : BookSchema.t) (db : Table) :
  get_session (add_book book) db =
  (Return book, insert_row (BookSchema.title book, BookSchema.author book) db).
Proof. reflexivity. Qed.

Lemma get_books_run (pagination : PaginationParams.t) (db : Table) :
  get_session (get_books pagination) db =
  (if int64 (PaginationParams.limit pagination) &&
      (int64 (PaginationParams.offset pagination) ||
       within_rows (PaginationParams.offset pagination) db)
   then Return (select_limit_offset (PaginationParams.limit pagination)
                                    (PaginationParams.offset pagination) db)
   else Raise OverflowError,
   db).
Proof.
  unfold get_session, get_books, session_execute_select. simpl.
  now destruct (int64 _ && _).
Qed.

Lemma delete_book_run (book_id : Z) (db : Table) :
  get_session (delete_book book_id) db =
  match select_by_pk book_id db with
  | Some _ => (Return (detail_json (deleted_detail book_id)), delete_row book_id db)
  | None =>
      (Raise (if int64 book_id then HTTPException 404 not_found else OverflowError), db)
  end.
Proof.
  destruct (select_by_pk book_id db) as [r|] eqn:Hsel.
  - pose proof (select_by_pk_int64 _ _ _ Hsel) as Hk.
    run_session. rewrite Hk, Hsel. run_session.
    now rewrite update_row_same.
  - run_session. destruct (int64 book_id); [now rewrite Hsel | reflexivity].
Qed.

Lemma update_book_run (book_id : Z) (book_data : BookUpdateSchema.t) (db : Table) :
  get_session (update_book book_id book_data) db =
  match select_by_pk book_id db with
  | Some old =>
      (Return (assigned book_data old),
       update_row (mkLoaded old (assigned book_data old)) db)
  | None =>
      (Raise (if int64 book_id then HTTPException 404 not_found else OverflowError), db)
  end.
Proof.
  destruct (select_by_pk book_id db) as [old|] eqn:Hsel.
  - pose proof (select_by_pk_id _ _ _ Hsel) as Hid.
    pose proof (select_by_pk_int64 _ _ _ Hsel) as Hk.
    assert (Hold : forall t a, has_id book_id (BookModel.mk (BookModel.id old) t a) = true)
      by (intros; now apply has_id_eq).
    assert (Hnew : select_by_pk book_id
                     (update_row (mkLoaded old (assigned book_data old)) db)
                   = Some (assigned book_data old))
      by now apply select_by_pk_update_row.
    destruct old as [i t0 a0], book_data as [[t|] [a|]];
      unfold assigned in *;
      cbn [BookModel.id BookModel.title BookModel.author
           BookUpdateSchema.title BookUpdateSchema.author] in *;
      run_session; rewrite Hk, Hsel; run_session; rewrite ?Hold; run_session;
      rewrite Hnew; run_session; rewrite ?Hold; reflexivity.
  - run_session. destruct (int64 book_id); [now rewrite Hsel | reflexivity].
Qed.

Lemma assigned_idem (book_data : BookUpdateSchema.t) (book : BookModel.t) :
  assigned book_data (assigned book_data book) = assigned book_data book.
Proof. destruct book_data as [[t|] [a|]], book; reflexivity. Qed.

Lemma assigned_nothing (book : BookModel.t) :
  assigned (BookUpdateSchema.mk None None) book = book.
Proof. now destruct book. Qed.

Lemma PUT_books_found (book_id : Z) (body : json) (book_data : BookUpdateSchema.t)
      (old : BookModel.t) (db : Table) :
  BookUpdateSchema_validate body = inr book_data ->
  select_by_pk book_id db = Some old ->
  PUT_books book_id body db =
  (JSONResponse 200 (book_json (assigned book_data old)),
   update_row (mkLoaded old (assigned book_data old)) db).
Proof.
  intros Hbody Hsel. unfold PUT_books.
  now rewrite Hbody, update_book_run, Hsel.
Qed.

(** Without a row under the key the answer is 404, or a server error when
    the key cannot be bound; the table is left as it is. *)
Lemma PUT_books_absent (book_id : Z) (body : json) (book_data : BookUpdateSchema.t)
      (db : Table) :
  BookUpdateSchema_validate body = inr book_data ->
  select_by_pk book_id db = None ->
  PUT_books book_id body db =
  (if int64 book_id then JSONResponse 404 (detail_json not_found)
   else InternalServerError, db).
Proof.
  intros Hbody Hsel. unfold PUT_books.
  rewrite Hbody, update_book_run, Hsel. now destruct (int64 book_id).
Qed.

Lemma PUT_books_missing (book_id : Z) (body : json) (book_data : BookUpdateSchema.t)
      (db : Table) :
  BookUpdateSchema_validate body = inr book_data ->
  int64 book_id = true ->
  select_by_pk book_id db = None ->
  PUT_books book_id body db = (JSONResponse 404 (detail_json not_found), db).
Proof.
  intros Hbody Hk Hsel. now rewrite (PUT_books_absent _ _ _ _ Hbody Hsel), Hk.
Qed.

Lemma DELETE_books_found (book_id : Z) (old : BookModel.t) (db : Table) :
  select_by_pk book_id db = Some old ->
  DELETE_books book_id db =
  (JSONResponse 200 (detail_json (deleted_detail book_id)), delete_row book_id db).
Proof.
  intros Hsel. unfold DELETE_books. now rewrite delete_book_run, Hsel.
Qed.

Lemma DELETE_books_absent (book_id : Z) (db : Table) :
  select_by_pk book_id db = None ->
  DELETE_books book_id db =
  (if int64 book_id then JSONResponse 404 (detail_json not_found)
   else InternalServerError, db).
Proof.
  intros Hsel. unfold DELETE_books.
  rewrite delete_book_run, Hsel. now destruct (int64 book_id).
Qed.

Lemma DELETE_books_missing (book_id : Z) (db : Table) :
  int64 book_id = true ->
  select_by_pk book_id db = None ->
  DELETE_books book_id db = (JSONResponse 404 (detail_json not_found), db).
Proof.
  intros Hk Hsel. now rewrite (DELETE_books_absent _ _ Hsel), Hk.
Qed.

Lemma POST_books_valid (body : json) (book : BookSchema.t) (db : Table) :
  BookSchema_validate body = inr book ->
  POST_books body db =
  (JSONResponse 200 (BookSchema_dump book),
   insert_row (BookSchema.title book, BookSchema.author book) db).
Proof.
  intros Hbody. unfold POST_books. now rewrite Hbody, add_book_run.
Qed.

(** A body that validates as a BookSchema is an object whose "title" and
    "author" are the strings of the schema. *)
Lemma BookSchema_validate_inr (body : json) (book : BookSchema.t) :
  BookSchema_validate body = inr book ->
  json_get "title" body = Some (JStr (BookSchema.title book)) /\
  json_get "author" body = Some (JStr (BookSchema.author book)).
Proof.
  destruct body as [| | | | |fields]; try discriminate. simpl.
  destruct (dict_get "title" fields) as [[| | |t| |]|]; try discriminate;
    destruct (dict_get "author" fields) as [[| | |a| |]|]; try discriminate.
  intros H. injection H as <-. now split.
Qed.

(** An update that sets no new title writes no title. *)
Lemma update_row_titles (old new : BookModel.t) (rows : Table) :
  BookModel.title new = BookModel.title old ->
  map BookModel.title (update_row (mkLoaded old new) rows) = map BookModel.title rows.
Proof.
  intros H. unfold update_row. simpl. rewrite H, String.eqb_refl, map_map.
  apply map_ext. intros r. now destruct (has_id _ _).
Qed.

Lemma update_row_authors (old new : BookModel.t) (rows : Table) :
  BookModel.author new = BookModel.author old ->
  map BookModel.author (update_row (mkLoaded old new) rows) = map BookModel.author rows.
Proof.
  intros H. unfold update_row. simpl. rewrite H, String.eqb_refl, map_map.
  apply map_ext. intros r. now destruct (has_id _ _).
Qed.

(** ** The update route *)

(** C1: for an existing book id, PUT applies exactly the fields the body
    supplies non-null and leaves the rest of that record as it was: the
    response and the stored record carry the old id, the supplied title (or
    the old one), the supplied author (or the old one); no row changes its
    id, rows under other ids are untouched, and a column the body does not
    supply is not written at all.  In particular a body with only "title"
    changes the title and keeps the author, and the empty body changes
    nothing. *)
Theorem update_applies_supplied_fields :
  forall (db : Table) (book_id : Z) (old : BookModel.t),
    select_by_pk book_id db = Some old ->
    (forall (body : json) (book_data : BookUpdateSchema.t),
        BookUpdateSchema_validate body = inr book_data ->
        exists (new : BookModel.t) (db' : Table),
          PUT_books book_id body db = (JSONResponse 200 (book_json new), db') /\
          select_by_pk book_id db' = Some new /\
          BookModel.id new = book_id /\
          BookModel.title new =
            match BookUpdateSchema.title book_data with
            | Some v => v
            | None => BookModel.title old
            end /\
          BookModel.author new =
            match BookUpdateSchema.author book_data with
            | Some v => v
            | None => BookModel.author old
            end /\
          map BookModel.id db' = map BookModel.id db /\
          (forall k, k <> book_id -> select_by_pk k db' = select_by_pk k db) /\
          (BookUpdateSchema.title book_data = None ->
           map BookModel.title db' = map BookModel.title db) /\
          (BookUpdateSchema.author book_data = None ->
           map BookModel.author db' = map BookModel.author db)) /\
    (forall v : string,
        exists db' : Table,
          PUT_books book_id (JObj [("title", JStr v)]) db =
          (JSONResponse 200
             (JObj [("id", JInt book_id); ("title", JStr v);
                    ("author", JStr (BookModel.author old))]), db') /\
          select_by_pk book_id db' =
          Some (BookModel.mk book_id v (BookModel.author old))) /\
    PUT_books book_id (JObj []) db =
    (JSONResponse 200
       (JObj [("id", JInt book_id); ("title", JStr (BookModel.title old));
              ("author", JStr (BookModel.author old))]), db).
Proof.
  intros db book_id old Hsel.
  pose proof (select_by_pk_id _ _ _ Hsel) as Hid.
  repeat split.
  - intros body book_data Hbody.
    exists (assigned book_data old), (update_row (mkLoaded old (assigned book_data old)) db).
    repeat split.
    + now apply PUT_books_found.
    + now apply select_by_pk_update_row.
    + exact Hid.
    + apply update_row_ids.
    + intros k Hk. apply select_by_pk_update_other. simpl. congruence.
    + intros Ht. apply update_row_titles. simpl. now rewrite Ht.
    + intros Ha. apply update_row_authors. simpl. now rewrite Ha.
  - intros v.
    set (book_data := BookUpdateSchema.mk (Some v) None).
    exists (update_row (mkLoaded old (assigned book_data old)) db).
    replace (BookModel.mk book_id v (BookModel.author old))
      with (assigned book_data old)
      by (unfold assigned; simpl; now rewrite Hid).
    split.
    + rewrite (PUT_books_found book_id (JObj [("title", JStr v)])
                 book_data old db eq_refl Hsel).
      f_equal. unfold book_json, BookGetSchema_dump. simpl. now rewrite Hid.
    + now apply select_by_pk_update_row.
  - rewrite (PUT_books_found book_id (JObj [])
               (BookUpdateSchema.mk None None) old db eq_refl Hsel).
    rewrite assigned_nothing, update_row_same.
    unfold book_json, BookGetSchema_dump. simpl. now rewrite Hid.
Qed.

Lemma update_applies_supplied_fields_witness :
  select_by_pk 1 [BookModel.mk 1 "Dune" "Herbert"]
  = Some (BookModel.mk 1 "Dune" "Herbert") /\
  PUT_books 1 (JObj []) [BookModel.mk 1 "Dune" "Herbert"] =
  (JSONResponse 200
     (JObj [("id", JInt 1); ("title", JStr "Dune"); ("author", JStr "Herbert")]),
   [BookModel.mk 1 "Dune" "Herbert"]).
Proof.
  split; [reflexivity|].
  exact (proj2 (proj2 (update_applies_supplied_fields
                         [BookModel.mk 1 "Dune" "Herbert"] 1
                         (BookModel.mk 1 "Dune" "Herbert") eq_refl))).
Defined.

(** C6: PUT is idempotent.  Sending the same request again to the table the
    first one left gives the same response and leaves that table as it is;
    this holds for every id and body, so in particular for an existing id
    and a valid body, where the response is the updated record. *)
Theorem update_idempotent :
  forall (db : Table) (book_id : Z) (body : json),
    PUT_books book_id body (snd (PUT_books book_id body db)) =
    PUT_books book_id body db.
Proof.
  intros db book_id body.
  destruct (BookUpdateSchema_validate body) as [loc|book_data] eqn:Hbody.
  - unfold PUT_books. now rewrite Hbody.
  - destruct (select_by_pk book_id db) as [old|] eqn:Hsel.
    + rewrite (PUT_books_found _ _ _ _ _ Hbody Hsel). simpl.
      assert (Hnew : select_by_pk book_id
                       (update_row (mkLoaded old (assigned book_data old)) db)
                     = Some (assigned book_data old))
        by now apply select_by_pk_update_row.
      rewrite (PUT_books_found _ _ _ _ _ Hbody Hnew).
      now rewrite assigned_idem, update_row_same.
    + rewrite (PUT_books_absent _ _ _ _ Hbody Hsel). cbn [snd].
      now apply PUT_books_absent with book_data.
Qed.

(** ** Ids that are not in the table *)

(** C2, as the code has it: for an id that SQLite can hold (64 bits,
    signed) and that is absent from the table, DELETE and PUT (with any body
    that validates) answer 404 with the detail "Книга не найдена", and the
    table is left as it was. *)
Theorem absent_id_is_404 :
  forall (db : Table) (book_id : Z),
    -9223372036854775808 <= book_id < 9223372036854775808 ->
    select_by_pk book_id db = None ->
    DELETE_books book_id db =
    (JSONResponse 404 (JObj [("detail", JStr "Книга не найдена")]), db) /\
    (forall (body : json) (book_data : BookUpdateSchema.t),
        BookUpdateSchema_validate body = inr book_data ->
        PUT_books book_id body db =
        (JSONResponse 404 (JObj [("detail", JStr "Книга не найдена")]), db)).
Proof.
  intros db book_id Hk Hsel. apply int64_spec in Hk. split.
  - now apply DELETE_books_missing.
  - intros body book_data Hbody. now apply PUT_books_missing with book_data.
Qed.

Lemma absent_id_is_404_witness :
  -9223372036854775808 <= 7 < 9223372036854775808 /\
  select_by_pk 7 [BookModel.mk 1 "Dune" "Herbert"] = None /\
  DELETE_books 7 [BookModel.mk 1 "Dune" "Herbert"] =
  (JSONResponse 404 (JObj [("detail", JStr "Книга не найдена")]),
   [BookModel.mk 1 "Dune" "Herbert"]).
Proof.
  split; [lia|]. split; [reflexivity|].
  refine (proj1 (absent_id_is_404 [BookModel.mk 1 "Dune" "Herbert"] 7 _ eq_refl)).
  lia.
Defined.

(** C2 as stated fails twice over.  On the empty table, where id 1 is
    absent, neither DELETE nor PUT answers with the detail
    "book not found"; and for the id 2^63, absent from every table, they
    answer with a server error and no 404 at all. *)
Lemma absent_id_detail_is_not_english :
  select_by_pk 1 [] = None /\
  fst (DELETE_books 1 []) <>
    JSONResponse 404 (JObj [("detail", JStr "book not found")]) /\
  fst (PUT_books 1 (JObj []) []) <>
    JSONResponse 404 (JObj [("detail", JStr "book not found")]) /\
  select_by_pk 9223372036854775808 [] = None /\
  fst (DELETE_books 9223372036854775808 []) = InternalServerError /\
  fst (PUT_books 9223372036854775808 (JObj []) []) = InternalServerError.
Proof.
  repeat split; discriminate.
Qed.

(** ** The delete route *)

(** C4, as the code has it: for an existing id, DELETE answers 200 with the
    body {"detail": "Книга с id=<id> удалена"}, <id> being the decimal text
    of the deleted id. *)
Theorem delete_confirms_with_id :
  forall (db : Table) (book_id : Z) (old : BookModel.t),
    select_by_pk book_id db = Some old ->
    fst (DELETE_books book_id db) =
    JSONResponse 200
      (JObj [("detail", JStr ("Книга с id=" ++ str book_id ++ " удалена")%string)]).
Proof.
  intros db book_id old Hsel.
  now rewrite (DELETE_books_found _ _ _ Hsel).
Qed.

Lemma delete_confirms_with_id_witness :
  select_by_pk 1 [BookModel.mk 1 "Dune" "Herbert"]
  = Some (BookModel.mk 1 "Dune" "Herbert") /\
  fst (DELETE_books 1 [BookModel.mk 1 "Dune" "Herbert"]) =
  JSONResponse 200 (JObj [("detail", JStr "Книга с id=1 удалена")]).
Proof.
  split; [reflexivity|].
  exact (delete_confirms_with_id [BookModel.mk 1 "Dune" "Herbert"] 1
           (BookModel.mk 1 "Dune" "Herbert") eq_refl).
Defined.

(** C4 as stated fails: deleting the existing id 1 does not answer
    {"detail": "book id=1 deleted"}. *)
Lemma delete_detail_is_not_english :
  select_by_pk 1 [BookModel.mk 1 "Dune" "Herbert"]
  = Some (BookModel.mk 1 "Dune" "Herbert") /\
  fst (DELETE_books 1 [BookModel.mk 1 "Dune" "Herbert"]) <>
  JSONResponse 200 (JObj [("detail", JStr "book id=1 deleted")]).
Proof.
  split; [reflexivity | discriminate].
Qed.

(** C5: after a successful DELETE of an existing id the id is absent from
    the table, and a second DELETE of the same id answers 404 and leaves the
    table as the first one left it. *)
Theorem delete_twice_is_404 :
  forall (db : Table) (book_id : Z) (old : BookModel.t),
    select_by_pk book_id db = Some old ->
    exists (content : json) (db' : Table),
      DELETE_books book_id db = (JSONResponse 200 content, db') /\
      select_by_pk book_id db' = None /\
      exists content' : json,
        DELETE_books book_id db' = (JSONResponse 404 content', db').
Proof.
  intros db book_id old Hsel.
  exists (detail_json (deleted_detail book_id)), (delete_row book_id db).
  split; [now apply DELETE_books_found with old|].
  split; [apply select_by_pk_delete_row|].
  exists (detail_json not_found).
  apply DELETE_books_missing; [|apply select_by_pk_delete_row].
  now apply select_by_pk_int64 in Hsel.
Qed.

Lemma delete_twice_is_404_witness :
  select_by_pk 1 [BookModel.mk 1 "Dune" "Herbert"]
  = Some (BookModel.mk 1 "Dune" "Herbert") /\
  exists (content : json) (db' : Table),
    DELETE_books 1 [BookModel.mk 1 "Dune" "Herbert"] = (JSONResponse 200 content, db') /\
    select_by_pk 1 db' = None /\
    exists content' : json,
      DELETE_books 1 db' = (JSONResponse 404 content', db').
Proof.
  split; [reflexivity|].
  exact (delete_twice_is_404 [BookModel.mk 1 "Dune" "Herbert"] 1
           (BookModel.mk 1 "Dune" "Herbert") eq_refl).
Defined.

(** ** Pagination *)

Section QueryProperties.

Variable parse_int : string -> option Z.

(** A query parameter is accepted with value n exactly when it is absent
    and n is the default, or its text is an int n within the bounds. *)
Lemma validate_field_Valid (f : Field) (raw : option string) (n : Z) :
  validate_field parse_int f raw = Valid n <->
  (raw = None /\ n = default f) \/
  (exists text, raw = Some text /\ parse_int text = Some n /\
                bound_ok Z.leb (ge f) n = true /\ bound_ok Z.geb (le f) n = true).
Proof.
  unfold validate_field. split.
  - destruct raw as [text|].
    + destruct (parse_int text) as [m|] eqn:Hm; [|discriminate].
      destruct (bound_ok Z.leb (ge f) m && bound_ok Z.geb (le f) m) eqn:Hb;
        [|discriminate].
      intros H. injection H as <-. apply andb_prop in Hb.
      right. exists text. tauto.
    + intros H. injection H as <-. now left.
  - intros [[-> ->] | (text & -> & Hm & Hge & Hle)]; [reflexivity|].
    now rewrite Hm, Hge, Hle.
Qed.

Lemma limit_field_bounds (n : Z) :
  bound_ok Z.leb (ge limit_field) n = true /\
  bound_ok Z.geb (le limit_field) n = true <-> 1 <= n <= 100.
Proof. simpl. rewrite Z.leb_le, Z.geb_le. lia. Qed.

Lemma offset_field_bounds (n : Z) :
  bound_ok Z.leb (ge offset_field) n = true /\
  bound_ok Z.geb (le offset_field) n = true <-> 0 <= n.
Proof. simpl. rewrite Z.leb_le. intuition. Qed.

Lemma PaginationParams_validate_inr (limit offset : option string) (l o : Z) :
  PaginationParams_validate parse_int limit offset = inr (PaginationParams.mk l o) <->
  validate_field parse_int limit_field limit = Valid l /\
  validate_field parse_int offset_field offset = Valid o.
Proof.
  unfold PaginationParams_validate.
  destruct (validate_field parse_int limit_field limit) as [l'|],
           (validate_field parse_int offset_field offset) as [o'|]; simpl;
    split; try discriminate; try (intros [? ?]; discriminate).
  - intros H. injection H as -> ->. now split.
  - intros [H1 H2]. injection H1 as ->. injection H2 as ->. reflexivity.
Qed.

Lemma PaginationParams_validate_bounds (limit offset : option string)
      (pagination : PaginationParams.t) :
  PaginationParams_validate parse_int limit offset = inr pagination ->
  1 <= PaginationParams.limit pagination <= 100 /\
  0 <= PaginationParams.offset pagination.
Proof.
  destruct pagination as [l o]. intros H.
  apply PaginationParams_validate_inr in H. destruct H as [Hl Ho].
  apply validate_field_Valid in Hl, Ho. simpl. split.
  - destruct Hl as [[_ ->] | (text & _ & _ & H)]; [simpl; lia|].
    now apply limit_field_bounds.
  - destruct Ho as [[_ ->] | (text & _ & _ & H)]; [simpl; lia|].
    now apply offset_field_bounds.
Qed.

Lemma GET_books_invalid (limit offset : option string) (loc : list string) (db : Table) :
  PaginationParams_validate parse_int limit offset = inl loc ->
  GET_books parse_int limit offset db = (RequestValidationError loc, db).
Proof. intros H. unfold GET_books. now rewrite H. Qed.

(** With valid parameters the answer is the page, or a server error when
    the offset cannot be bound; the table is left as it is. *)
Lemma GET_books_bound (limit offset : option string) (pagination : PaginationParams.t)
      (db : Table) :
  PaginationParams_validate parse_int limit offset = inr pagination ->
  GET_books parse_int limit offset db =
  (if int64 (PaginationParams.offset pagination) ||
      within_rows (PaginationParams.offset pagination) db
   then JSONResponse 200
          (JList (map book_json
                    (firstn (Z.to_nat (PaginationParams.limit pagination))
                            (skipn (Z.to_nat (PaginationParams.offset pagination)) db))))
   else InternalServerError,
   db).
Proof.
  intros H. pose proof (PaginationParams_validate_bounds _ _ _ H) as [Hl _].
  unfold GET_books. rewrite H, get_books_run.
  rewrite (proj2 (int64_spec (PaginationParams.limit pagination))) by lia.
  cbn [andb]. unfold select_limit_offset.
  rewrite (proj2 (Z.ltb_ge _ _)) by lia.
  now destruct (int64 _ || _).
Qed.

Lemma GET_books_valid (limit offset : option string) (pagination : PaginationParams.t)
      (db : Table) :
  PaginationParams_validate parse_int limit offset = inr pagination ->
  PaginationParams.offset pagination < 9223372036854775808 ->
  GET_books parse_int limit offset db =
  (JSONResponse 200
     (JList (map book_json
               (firstn (Z.to_nat (PaginationParams.limit pagination))
                       (skipn (Z.to_nat (PaginationParams.offset pagination)) db)))),
   db).
Proof.
  intros H Ho. pose proof (PaginationParams_validate_bounds _ _ _ H) as [_ Ho'].
  rewrite (GET_books_bound _ _ _ db H).
  now rewrite (proj2 (int64_spec (PaginationParams.offset pagination))) by lia.
Qed.

Lemma GET_books_within (limit offset : option string) (pagination : PaginationParams.t)
      (db : Table) :
  PaginationParams_validate parse_int limit offset = inr pagination ->
  within_rows (PaginationParams.offset pagination) db = true ->
  GET_books parse_int limit offset db =
  (JSONResponse 200
     (JList (map book_json
               (firstn (Z.to_nat (PaginationParams.limit pagination))
                       (skipn (Z.to_nat (PaginationParams.offset pagination)) db)))),
   db).
Proof.
  intros H Ho. rewrite (GET_books_bound _ _ _ db H), Ho. now rewrite orb_true_r.
Qed.

(** An offset that cannot be bound and is beyond the table: a server
    error. *)
Lemma GET_books_overflow (limit offset : option string) (pagination : PaginationParams.t)
      (db : Table) :
  PaginationParams_validate parse_int limit offset = inr pagination ->
  9223372036854775808 <= PaginationParams.offset pagination ->
  Z.of_nat (List.length db) <= PaginationParams.offset pagination ->
  GET_books parse_int limit offset db = (InternalServerError, db).
Proof.
  intros H Ho Hlen. rewrite (GET_books_bound _ _ _ db H).
  replace (int64 (PaginationParams.offset pagination)) with false
    by (symmetry; apply not_true_is_false; rewrite int64_spec; lia).
  replace (within_rows (PaginationParams.offset pagination) db) with false;
    [reflexivity|].
  symmetry. unfold within_rows. apply andb_false_intro2. apply Z.ltb_ge. lia.
Qed.

(** GET never writes. *)
Lemma GET_books_table (limit offset : option string) (db : Table) :
  snd (GET_books parse_int limit offset db) = db.
Proof.
  destruct (PaginationParams_validate parse_int limit offset) as [loc|p] eqn:Hv.
  - now rewrite (GET_books_invalid _ _ _ _ Hv).
  - now rewrite (GET_books_bound _ _ _ _ Hv).
Qed.

(** C7: limit defaults to 20 and is accepted only within 1..100, offset
    defaults to 0 and is accepted only from 0 up; a parameter whose text is
    not an int or whose int is out of range makes the request fail with a
    validation error that does not depend on the table and leaves it as it
    was. *)
Theorem pagination_params_validated :
  forall (limit offset : option string),
    (forall l o : Z,
        PaginationParams_validate parse_int limit offset
        = inr (PaginationParams.mk l o) <->
        ((limit = None /\ l = 20) \/
         (exists text, limit = Some text /\ parse_int text = Some l /\ 1 <= l <= 100)) /\
        ((offset = None /\ o = 0) \/
         (exists text, offset = Some text /\ parse_int text = Some o /\ 0 <= o))) /\
    (forall loc : list string,
        PaginationParams_validate parse_int limit offset = inl loc ->
        forall db : Table,
          GET_books parse_int limit offset db = (RequestValidationError loc, db)) /\
    (forall text : string,
        (limit = Some text /\
         forall n, parse_int text = Some n -> n < 1 \/ 100 < n) \/
        (offset = Some text /\
         forall n, parse_int text = Some n -> n < 0) ->
        exists loc : list string,
          forall db : Table,
            GET_books parse_int limit offset db = (RequestValidationError loc, db)).
Proof.
  intros limit offset.
  assert (Hiff : forall l o : Z,
             PaginationParams_validate parse_int limit offset
             = inr (PaginationParams.mk l o) <->
             ((limit = None /\ l = 20) \/
              (exists text, limit = Some text /\ parse_int text = Some l /\ 1 <= l <= 100)) /\
             ((offset = None /\ o = 0) \/
              (exists text, offset = Some text /\ parse_int text = Some o /\ 0 <= o))).
  { intros l o. rewrite PaginationParams_validate_inr, !validate_field_Valid.
    split; intros [Hl Ho]; split.
    - destruct Hl as [Hl | (text & ? & ? & Hb)]; [now left|].
      right. exists text. repeat split; try assumption; now apply limit_field_bounds.
    - destruct Ho as [Ho | (text & ? & ? & Hb)]; [now left|].
      right. exists text. repeat split; try assumption; now apply offset_field_bounds.
    - destruct Hl as [Hl | (text & ? & ? & Hb)]; [now left|].
      right. exists text. apply limit_field_bounds in Hb. tauto.
    - destruct Ho as [Ho | (text & ? & ? & Hb)]; [now left|].
      right. exists text. apply offset_field_bounds in Hb. tauto. }
  split; [exact Hiff|]. split.
  - intros loc H db. now apply GET_books_invalid.
  - intros text Hbad.
    destruct (PaginationParams_validate parse_int limit offset) as [loc|[l o]] eqn:Hv.
    + exists loc. intros db. now apply GET_books_invalid.
    + exfalso. destruct (proj1 (Hiff l o) eq_refl) as [Hl Ho].
      destruct Hbad as [[-> Hn] | [-> Hn]].
      * destruct Hl as [[Hl _] | (text' & Ht & Hp & Hb)]; [discriminate|].
        injection Ht as <-. specialize (Hn _ Hp). lia.
      * destruct Ho as [[Ho _] | (text' & Ht & Hp & Hb)]; [discriminate|].
        injection Ht as <-. specialize (Hn _ Hp). lia.
Qed.

End QueryProperties.

Example pagination_accepts_100 :
  PaginationParams_validate decimal (Some "100") None
  = inr (PaginationParams.mk 100 0).
Proof. reflexivity. Qed.

Example pagination_rejects_101_and_text :
  PaginationParams_validate decimal (Some "101") (Some "abc")
  = inl ["limit"; "offset"].
Proof. reflexivity. Qed.

Example pagination_rejects_0_and_negative :
  GET_books decimal (Some "0") (Some "-1") [BookModel.mk 1 "Dune" "Herbert"]
  = (RequestValidationError ["limit"; "offset"], [BookModel.mk 1 "Dune" "Herbert"]).
Proof. reflexivity. Qed.

(** ** The list route *)

(** C8, as the code has it: with valid pagination parameters whose offset
    is below 2^63, GET answers 200 with a run of consecutive rows of the
    table, in table order: the rows before it are the first offset rows (all
    rows, if there are fewer), the run has limit rows or as many as remain,
    so never more than limit, it is empty when offset is at least the number
    of rows, and the table is left as it was. *)
Theorem list_skips_offset_takes_limit :
  forall (parse_int : string -> option Z) (limit offset : option string)
         (pagination : PaginationParams.t) (db : Table),
    PaginationParams_validate parse_int limit offset = inr pagination ->
    PaginationParams.offset pagination < 9223372036854775808 ->
    exists skipped rows rest : Table,
      GET_books parse_int limit offset db =
      (JSONResponse 200 (JList (map book_json rows)), db) /\
      db = skipped ++ rows ++ rest /\
      Z.of_nat (List.length skipped) =
        Z.min (PaginationParams.offset pagination) (Z.of_nat (List.length db)) /\
      Z.of_nat (List.length rows) =
        Z.min (PaginationParams.limit pagination)
              (Z.of_nat (List.length db) - Z.of_nat (List.length skipped)) /\
      Z.of_nat (List.length rows) <= PaginationParams.limit pagination /\
      (Z.of_nat (List.length db) <= PaginationParams.offset pagination -> rows = []).
Proof.
  intros parse_int limit offset pagination db Hv Hbound.
  pose proof (PaginationParams_validate_bounds _ _ _ _ Hv) as [Hl Ho].
  set (l := Z.to_nat (PaginationParams.limit pagination)).
  set (o := Z.to_nat (PaginationParams.offset pagination)).
  exists (firstn o db), (firstn l (skipn o db)), (skipn l (skipn o db)).
  split; [now apply GET_books_valid|].
  split; [now rewrite !firstn_skipn|].
  rewrite !length_firstn, length_skipn.
  repeat split; try lia.
  intros Hlen. rewrite skipn_all2 by lia. apply firstn_nil.
Qed.

Lemma list_skips_offset_takes_limit_witness :
  PaginationParams_validate decimal (Some "1") (Some "1")
  = inr (PaginationParams.mk 1 1) /\
  1 < 9223372036854775808 /\
  exists skipped rows rest : Table,
    GET_books decimal (Some "1") (Some "1")
      [BookModel.mk 1 "Dune" "Herbert"; BookModel.mk 2 "Emma" "Austen";
       BookModel.mk 3 "Ulysses" "Joyce"] =
    (JSONResponse 200 (JList (map book_json rows)),
     [BookModel.mk 1 "Dune" "Herbert"; BookModel.mk 2 "Emma" "Austen";
      BookModel.mk 3 "Ulysses" "Joyce"]) /\
    [BookModel.mk 1 "Dune" "Herbert"; BookModel.mk 2 "Emma" "Austen";
     BookModel.mk 3 "Ulysses" "Joyce"] = skipped ++ rows ++ rest /\
    Z.of_nat (List.length skipped) = Z.min 1 3 /\
    Z.of_nat (List.length rows) = Z.min 1 (3 - Z.of_nat (List.length skipped)) /\
    Z.of_nat (List.length rows) <= 1 /\
    (3 <= 1 -> rows = []).
Proof.
  split; [reflexivity|]. split; [lia|].
  refine (list_skips_offset_takes_limit decimal (Some "1") (Some "1")
            (PaginationParams.mk 1 1)
            [BookModel.mk 1 "Dune" "Herbert"; BookModel.mk 2 "Emma" "Austen";
             BookModel.mk 3 "Ulysses" "Joyce"] eq_refl _).
  simpl. lia.
Defined.

(** C8 as stated fails: the offset 9223372036854775808 is a valid
    parameter and at least the number of rows of the table, yet GET answers
    with a server error and not with the empty list. *)
Lemma list_fails_at_offset_2_63 :
  PaginationParams_validate decimal None (Some "9223372036854775808")
  = inr (PaginationParams.mk 20 9223372036854775808) /\
  Z.of_nat (List.length [BookModel.mk 1 "Dune" "Herbert"]) <= 9223372036854775808 /\
  GET_books decimal None (Some "9223372036854775808") [BookModel.mk 1 "Dune" "Herbert"]
  = (InternalServerError, [BookModel.mk 1 "Dune" "Herbert"]) /\
  fst (GET_books decimal None (Some "9223372036854775808")
         [BookModel.mk 1 "Dune" "Herbert"])
  <> JSONResponse 200 (JList []).
Proof.
  split; [reflexivity|]. split; [simpl; lia|]. split; [reflexivity | discriminate].
Qed.

Example list_second_page :
  GET_books decimal (Some "1") (Some "1")
    [BookModel.mk 1 "Dune" "Herbert"; BookModel.mk 2 "Emma" "Austen";
     BookModel.mk 3 "Ulysses" "Joyce"] =
  (JSONResponse 200
     (JList [JObj [("id", JInt 2); ("title", JStr "Emma"); ("author", JStr "Austen")]]),
   [BookModel.mk 1 "Dune" "Herbert"; BookModel.mk 2 "Emma" "Austen";
    BookModel.mk 3 "Ulysses" "Joyce"]).
Proof. reflexivity. Qed.

(** ** The create route *)

(** C3: for a valid body the response of POST is 200 with exactly the two
    fields "title" and "author", holding the title and author that were
    submitted; it has no "id" field (nor any other). *)
Theorem create_echoes_without_id :
  forall (db : Table) (body : json) (book : BookSchema.t),
    BookSchema_validate body = inr book ->
    exists (content : json) (db' : Table),
      POST_books body db = (JSONResponse 200 content, db') /\
      content = JObj [("title", JStr (BookSchema.title book));
                      ("author", JStr (BookSchema.author book))] /\
      json_get "title" content = json_get "title" body /\
      json_get "author" content = json_get "author" body /\
      json_get "id" content = None /\
      (forall key : string,
          key <> "title" -> key <> "author" -> json_get key content = None).
Proof.
  intros db body book Hbody.
  pose proof (BookSchema_validate_inr _ _ Hbody) as [Ht Ha].
  exists (BookSchema_dump book),
         (insert_row (BookSchema.title book, BookSchema.author book) db).
  split; [now apply POST_books_valid|].
  split; [reflexivity|]. rewrite Ht, Ha.
  repeat split.
  intros key Hkt Hka. unfold BookSchema_dump, json_get, dict_get.
  rewrite !(proj2 (String.eqb_neq _ _)) by congruence. reflexivity.
Qed.

Lemma create_echoes_without_id_witness :
  BookSchema_validate (JObj [("title", JStr "Dune"); ("author", JStr "Herbert")])
  = inr (BookSchema.mk "Dune" "Herbert") /\
  exists (content : json) (db' : Table),
    POST_books (JObj [("title", JStr "Dune"); ("author", JStr "Herbert")]) []
    = (JSONResponse 200 content, db') /\
    content = JObj [("title", JStr "Dune"); ("author", JStr "Herbert")] /\
    json_get "title" content = Some (JStr "Dune") /\
    json_get "author" content = Some (JStr "Herbert") /\
    json_get "id" content = None /\
    (forall key : string,
        key <> "title" -> key <> "author" -> json_get key content = None).
Proof.
  split; [reflexivity|].
  exact (create_echoes_without_id []
           (JObj [("title", JStr "Dune"); ("author", JStr "Herbert")])
           (BookSchema.mk "Dune" "Herbert") eq_refl).
Defined.

(** C9: after a valid POST, a GET with offset 0 and a limit that is at
    least the number of rows then stored answers 200 with a list that has a
    record with the submitted title and author. *)
Theorem create_then_list_contains :
  forall (parse_int : string -> option Z) (db : Table) (body : json)
         (book : BookSchema.t) (limit offset : option string)
         (pagination : PaginationParams.t),
    BookSchema_validate body = inr book ->
    PaginationParams_validate parse_int limit offset = inr pagination ->
    PaginationParams.offset pagination = 0 ->
    Z.of_nat (List.length (snd (POST_books body db)))
      <= PaginationParams.limit pagination ->
    exists (k : Z) (items : list json),
      GET_books parse_int limit offset (snd (POST_books body db)) =
      (JSONResponse 200 (JList items), snd (POST_books body db)) /\
      In (JObj [("id", JInt k);
                ("title", JStr (BookSchema.title book));
                ("author", JStr (BookSchema.author book))]) items.
Proof.
  intros parse_int db body book limit offset pagination Hbody Hv Ho Hlen.
  rewrite (POST_books_valid _ _ db Hbody) in *.
  cbn [snd] in *.
  set (db' := insert_row (BookSchema.title book, BookSchema.author book) db) in *.
  exists (next_rowid db).
  rewrite (GET_books_valid _ _ _ _ db' Hv) by lia.
  eexists. split; [reflexivity|].
  rewrite Ho. change (skipn (Z.to_nat 0) db') with db'.
  rewrite firstn_all2 by lia.
  unfold db', insert_row. rewrite map_app. apply in_or_app. right. now left.
Qed.

Lemma create_then_list_contains_witness :
  BookSchema_validate (JObj [("title", JStr "Dune"); ("author", JStr "Herbert")])
  = inr (BookSchema.mk "Dune" "Herbert") /\
  PaginationParams_validate decimal (Some "20") (Some "0")
  = inr (PaginationParams.mk 20 0) /\
  exists (k : Z) (items : list json),
    GET_books decimal (Some "20") (Some "0")
      (snd (POST_books (JObj [("title", JStr "Dune"); ("author", JStr "Herbert")])
              [BookModel.mk 4 "Emma" "Austen"])) =
    (JSONResponse 200 (JList items),
     snd (POST_books (JObj [("title", JStr "Dune"); ("author", JStr "Herbert")])
            [BookModel.mk 4 "Emma" "Austen"])) /\
    In (JObj [("id", JInt k); ("title", JStr "Dune"); ("author", JStr "Herbert")]) items.
Proof.
  split; [reflexivity|]. split; [reflexivity|].
  refine (create_then_list_contains decimal [BookModel.mk 4 "Emma" "Austen"]
            (JObj [("title", JStr "Dune"); ("author", JStr "Herbert")])
            (BookSchema.mk "Dune" "Herbert") (Some "20") (Some "0")
            (PaginationParams.mk 20 0) eq_refl eq_refl eq_refl _).
  simpl. lia.
Defined.

(** Validation of a BookSchema asks for nothing but two strings. *)
Lemma BookSchema_validate_strings (body : json) (t a : string) :
  json_get "title" body = Some (JStr t) ->
  json_get "author" body = Some (JStr a) ->
  BookSchema_validate body = inr (BookSchema.mk t a).
Proof.
  destruct body as [| | | | |fields]; try discriminate. simpl.
  now intros -> ->.
Qed.

(** C10: nothing makes title or author unique, and nothing constrains the
    strings.  Posting the same valid body twice succeeds both times and
    adds exactly two rows with that title and author, under two different
    ids that no row of the table had before, next to the rows that were
    there; any body whose "title" and "author" are strings is valid, the
    one with two empty strings included, and it is stored as it is. *)
Theorem create_twice_makes_two_records :
  forall (db : Table),
    (forall (body : json) (book : BookSchema.t),
        BookSchema_validate body = inr book ->
        exists (id1 id2 : Z) (content : json) (db1 db2 : Table),
          let row1 := BookModel.mk id1 (BookSchema.title book) (BookSchema.author book) in
          let row2 := BookModel.mk id2 (BookSchema.title book) (BookSchema.author book) in
          POST_books body db = (JSONResponse 200 content, db1) /\
          POST_books body db1 = (JSONResponse 200 content, db2) /\
          id1 <> id2 /\
          (forall r, In r db -> BookModel.id r <> id1 /\ BookModel.id r <> id2) /\
          (forall r, In r db2 <-> In r db \/ r = row1 \/ r = row2) /\
          List.length db2 = S (S (List.length db))) /\
    (forall (body : json) (t a : string),
        json_get "title" body = Some (JStr t) ->
        json_get "author" body = Some (JStr a) ->
        BookSchema_validate body = inr (BookSchema.mk t a)) /\
    (exists (k : Z) (db' : Table),
        POST_books (JObj [("title", JStr ""); ("author", JStr "")]) db =
        (JSONResponse 200 (JObj [("title", JStr ""); ("author", JStr "")]), db') /\
        In (BookModel.mk k "" "") db').
Proof.
  intros db. split; [|split].
  - intros body book Hbody.
    set (row1 := BookModel.mk (next_rowid db)
                   (BookSchema.title book) (BookSchema.author book)).
    set (row2 := BookModel.mk (next_rowid (db ++ [row1]))
                   (BookSchema.title book) (BookSchema.author book)).
    exists (next_rowid db), (next_rowid (db ++ [row1])), (BookSchema_dump book),
           (db ++ [row1]), ((db ++ [row1]) ++ [row2]).
    cbv zeta. fold row1. fold row2.
    split; [now apply POST_books_valid|].
    split; [now rewrite (POST_books_valid _ _ _ Hbody)|].
    assert (Hrow1 : BookModel.id row1 < next_rowid (db ++ [row1]))
      by (apply next_rowid_above, in_or_app; right; now left).
    split; [simpl in Hrow1; lia|].
    split.
    { intros r Hr. pose proof (next_rowid_above db r Hr).
      assert (BookModel.id r < next_rowid (db ++ [row1]))
        by (apply next_rowid_above, in_or_app; now left).
      lia. }
    split.
    { intros r. rewrite !in_app_iff. simpl. intuition. }
    rewrite !length_app. simpl. lia.
  - exact BookSchema_validate_strings.
  - exists (next_rowid db), (db ++ [BookModel.mk (next_rowid db) "" ""]).
    split; [now rewrite (POST_books_valid _ (BookSchema.mk "" "") db)|].
    apply in_or_app. right. now left.
Qed.

Example create_same_book_twice :
  snd (POST_books (JObj [("title", JStr "Dune"); ("author", JStr "Herbert")])
         (snd (POST_books (JObj [("title", JStr "Dune"); ("author", JStr "Herbert")])
                 [BookModel.mk 4 "Emma" "Austen"])))
  = [BookModel.mk 4 "Emma" "Austen"; BookModel.mk 5 "Dune" "Herbert";
     BookModel.mk 6 "Dune" "Herbert"].
Proof. reflexivity. Qed.

(** The scenario of the service's life of one book: create, list, update
    the author, delete, delete again. *)
Example life_of_one_book :
  let dune := JObj [("title", JStr "Dune"); ("author", JStr "Herbert")] in
  let db1 := snd (POST_books dune []) in
  let db2 := snd (PUT_books 1 (JObj [("author", JStr "F. Herbert")]) db1) in
  let db3 := snd (DELETE_books 1 db2) in
  fst (POST_books dune []) = JSONResponse 200 dune /\
  fst (GET_books decimal (Some "20") (Some "0") db1) =
    JSONResponse 200
      (JList [JObj [("id", JInt 1); ("title", JStr "Dune"); ("author", JStr "Herbert")]]) /\
  fst (PUT_books 1 (JObj [("author", JStr "F. Herbert")]) db1) =
    JSONResponse 200
      (JObj [("id", JInt 1); ("title", JStr "Dune"); ("author", JStr "F. Herbert")]) /\
  fst (DELETE_books 1 db2) =
    JSONResponse 200 (JObj [("detail", JStr "Книга с id=1 удалена")]) /\
  DELETE_books 1 db3 =
    (JSONResponse 404 (JObj [("detail", JStr "Книга не найдена")]), []).
Proof. repeat split. Qed.

Example str_of_ints :
  str 0 = "0" /\ str 42 = "42" /\ str (-12) = "-12".
Proof. repeat split. Qed.

(** ** The primary key constraint across requests *)

(** X19: on a table whose ids are unique, no request of any route breaks
    the uniqueness of ids, and GET never writes. *)
Lemma routes_keep_ids_unique (parse_int : string -> option Z) (db : Table) :
  unique_ids db ->
  (forall body, unique_ids (snd (POST_books body db))) /\
  (forall limit offset, snd (GET_books parse_int limit offset db) = db) /\
  (forall book_id body, unique_ids (snd (PUT_books book_id body db))) /\
  (forall book_id, unique_ids (snd (DELETE_books book_id db))).
Proof.
  intros Hdb. repeat split.
  - intros body. unfold POST_books.
    destruct (BookSchema_validate body) as [loc|book]; [exact Hdb|].
    rewrite add_book_run. now apply insert_row_unique.
  - intros limit offset. apply GET_books_table.
  - intros book_id body. unfold PUT_books.
    destruct (BookUpdateSchema_validate body) as [loc|book_data]; [exact Hdb|].
    rewrite update_book_run.
    destruct (select_by_pk book_id db); [|now destruct (int64 book_id)].
    now apply update_row_unique.
  - intros book_id. unfold DELETE_books. rewrite delete_book_run.
    destruct (select_by_pk book_id db); [|now destruct (int64 book_id)].
    now apply delete_row_unique.
Qed.

(** * Further properties of the routes *)

(** ** More on the statements against the table *)

Lemma select_by_pk_app (k : Z) (rows rows' : Table) :
  select_by_pk k (rows ++ rows') =
  match select_by_pk k rows with
  | Some r => Some r
  | None => select_by_pk k rows'
  end.
Proof.
  unfold select_by_pk. destruct (int64 k); [|reflexivity].
  induction rows as [|r rows IH]; [reflexivity|].
  simpl. now destruct (has_id k r).
Qed.

(** Deleting under a key that no row has deletes nothing. *)
Lemma delete_row_absent (k : Z) (rows : Table) :
  (forall r, In r rows -> BookModel.id r <> k) -> delete_row k rows = rows.
Proof.
  induction rows as [|r rows IH]; [reflexivity|].
  intros H. simpl. rewrite (proj2 (has_id_neq k r)) by (apply H; now left).
  simpl. rewrite IH; [reflexivity|]. intros r' Hr'. apply H. now right.
Qed.

Lemma delete_row_app (k : Z) (rows rows' : Table) :
  delete_row k (rows ++ rows') = delete_row k rows ++ delete_row k rows'.
Proof. apply filter_app. Qed.

Lemma max_rowid_In (rows : Table) (m : Z) :
  max_rowid rows = Some m -> exists r, In r rows /\ BookModel.id r = m.
Proof.
  revert m. induction rows as [|r rows IH]; [discriminate|].
  simpl. intros m H. injection H as <-.
  destruct (max_rowid rows) as [m'|].
  - destruct (IH m' eq_refl) as (r' & Hr' & Hid).
    destruct (Z.max_spec (BookModel.id r) m') as [[_ ->] | [_ ->]].
    + exists r'. split; [now right | exact Hid].
    + exists r. split; [now left | reflexivity].
  - exists r. split; [now left | reflexivity].
Qed.

(** While every id is below the largest there is, the next id can be held. *)
Lemma next_rowid_int64 (rows : Table) :
  below_largest_rowid rows -> int64 (next_rowid rows) = true.
Proof.
  unfold below_largest_rowid, next_rowid. intros H. apply int64_spec.
  destruct (max_rowid rows) as [m|] eqn:Hm; [|lia].
  destruct (max_rowid_In _ _ Hm) as (r & Hr & <-).
  rewrite Forall_forall in H. specialize (H r Hr). lia.
Qed.

(** The row just inserted is the one found under the new id, and inserting
    hides no row that was there. *)
Lemma select_by_pk_insert_row_new (b : string * string) (rows : Table) :
  below_largest_rowid rows ->
  select_by_pk (next_rowid rows) (insert_row b rows) =
  Some (BookModel.mk (next_rowid rows) (fst b) (snd b)).
Proof.
  intros H. unfold insert_row. rewrite select_by_pk_app, select_by_pk_next_rowid.
  rewrite select_by_pk_bound by now apply next_rowid_int64.
  simpl. unfold has_id. simpl. now rewrite Z.eqb_refl.
Qed.

Lemma select_by_pk_insert_row_old (b : string * string) (k : Z) (r : BookModel.t)
      (rows : Table) :
  select_by_pk k rows = Some r -> select_by_pk k (insert_row b rows) = Some r.
Proof.
  intros H. unfold insert_row. now rewrite select_by_pk_app, H.
Qed.

(** Deleting the row just inserted gives the table back. *)
Lemma delete_row_insert_row (b : string * string) (rows : Table) :
  delete_row (next_rowid rows) (insert_row b rows) = rows.
Proof.
  unfold insert_row. rewrite delete_row_app.
  rewrite delete_row_absent
    by (intros r Hr; pose proof (next_rowid_above rows r Hr); lia).
  simpl. unfold has_id. simpl. rewrite Z.eqb_refl. simpl. apply app_nil_r.
Qed.

(** With unique ids a delete takes out one row and keeps the others in
    their order. *)
Lemma delete_row_unique_split (k : Z) (old : BookModel.t) (rows : Table) :
  unique_ids rows ->
  select_by_pk k rows = Some old ->
  exists before after : Table,
    rows = before ++ old :: after /\ delete_row k rows = before ++ after.
Proof.
  intros Hu Hsel. rewrite (select_by_pk_bound _ _ (select_by_pk_int64 _ _ _ Hsel)) in Hsel.
  revert Hu Hsel. unfold unique_ids.
  induction rows as [|r rows IH]; [discriminate|].
  simpl. intros Hu Hsel. inversion Hu as [|? ? Hnotin Hrest]; subst.
  destruct (has_id k r) eqn:Hr.
  - injection Hsel as <-. exists [], rows. split; [reflexivity|].
    simpl. apply delete_row_absent.
    intros r' Hr' Hid. apply Hnotin. apply has_id_eq in Hr.
    apply in_map_iff. exists r'. split; [congruence | exact Hr'].
  - destruct (IH Hrest Hsel) as (before & after & -> & Hdel).
    exists (r :: before), after. simpl. now rewrite Hdel.
Qed.

(** ** Setup *)

(** X1: POST /setup answers 200 and leaves an existing, empty table,
    whatever the database held and whether or not the table existed: after
    it no id leads to a row, so DELETE and PUT of any id that SQLite can
    hold (64 bits, signed) answer 404, and a second setup changes nothing
    more. *)
Theorem setup_leaves_empty_table :
  forall d : Database,
    exists db : Table,
      POST_setup d = (JSONResponse 200 JNull, Some db) /\
      db = [] /\
      (forall k : Z, select_by_pk k db = None) /\
      (forall k : Z,
          -9223372036854775808 <= k < 9223372036854775808 ->
          DELETE_books k db = (JSONResponse 404 (detail_json not_found), db)) /\
      (forall (k : Z) (body : json) (book_data : BookUpdateSchema.t),
          -9223372036854775808 <= k < 9223372036854775808 ->
          BookUpdateSchema_validate body = inr book_data ->
          PUT_books k body db = (JSONResponse 404 (detail_json not_found), db)) /\
      POST_setup (Some db) = POST_setup d.
Proof.
  intros d. exists []. split; [reflexivity|]. split; [reflexivity|].
  assert (Hnone : forall k : Z, select_by_pk k [] = None)
    by (intros k; now apply select_by_pk_None).
  split; [exact Hnone|]. split; [|split; [|reflexivity]].
  - intros k Hk. apply int64_spec in Hk. now apply DELETE_books_missing.
  - intros k body book_data Hk Hbody. apply int64_spec in Hk.
    now apply PUT_books_missing with book_data.
Qed.

(** X2: after a setup ids start again at 1: the first valid POST stores its
    book under id 1 as the only row, and a valid GET with offset 0 then
    lists exactly that book. *)
Theorem setup_then_create_has_id_1 :
  forall (parse_int : string -> option Z) (d : Database) (body : json)
         (book : BookSchema.t) (limit offset : option string)
         (pagination : PaginationParams.t),
    BookSchema_validate body = inr book ->
    PaginationParams_validate parse_int limit offset = inr pagination ->
    PaginationParams.offset pagination = 0 ->
    exists db : Table,
      snd (POST_setup d) = Some db /\
      snd (POST_books body db) =
        [BookModel.mk 1 (BookSchema.title book) (BookSchema.author book)] /\
      fst (GET_books parse_int limit offset (snd (POST_books body db))) =
        JSONResponse 200
          (JList [JObj [("id", JInt 1);
                        ("title", JStr (BookSchema.title book));
                        ("author", JStr (BookSchema.author book))]]).
Proof.
  intros parse_int d body book limit offset pagination Hbody Hv Ho.
  exists []. split; [reflexivity|].
  rewrite (POST_books_valid _ _ [] Hbody). split; [reflexivity|].
  cbn [snd]. rewrite (GET_books_valid _ _ _ _ _ Hv) by lia. rewrite Ho.
  pose proof (PaginationParams_validate_bounds _ _ _ _ Hv) as [Hl _].
  destruct (Z.to_nat (PaginationParams.limit pagination)) as [|n] eqn:Hn; [lia|].
  cbn. now rewrite firstn_nil.
Qed.

Lemma setup_then_create_has_id_1_witness :
  BookSchema_validate (JObj [("title", JStr "Dune"); ("author", JStr "Herbert")])
  = inr (BookSchema.mk "Dune" "Herbert") /\
  PaginationParams_validate decimal None None = inr (PaginationParams.mk 20 0) /\
  exists db : Table,
    snd (POST_setup (Some [BookModel.mk 7 "Emma" "Austen"])) = Some db /\
    snd (POST_books (JObj [("title", JStr "Dune"); ("author", JStr "Herbert")]) db) =
      [BookModel.mk 1 "Dune" "Herbert"] /\
    fst (GET_books decimal None None
           (snd (POST_books (JObj [("title", JStr "Dune"); ("author", JStr "Herbert")]) db))) =
      JSONResponse 200
        (JList [JObj [("id", JInt 1); ("title", JStr "Dune"); ("author", JStr "Herbert")]]).
Proof.
  split; [reflexivity|]. split; [reflexivity|].
  exact (setup_then_create_has_id_1 decimal (Some [BookModel.mk 7 "Emma" "Austen"])
           (JObj [("title", JStr "Dune"); ("author", JStr "Herbert")])
           (BookSchema.mk "Dune" "Herbert") None None
           (PaginationParams.mk 20 0) eq_refl eq_refl eq_refl).
Defined.

(** ** Create, with lookup and delete *)

(** X3: on a table whose ids are all below the largest id SQLite has
    (2^63 - 1), a valid POST appends one row under an id larger than every
    id in the table; that id then leads to the submitted title and author,
    and every id that led to a record before still leads to the same
    record. *)
Theorem create_is_found_under_fresh_id :
  forall (db : Table) (body : json) (book : BookSchema.t),
    below_largest_rowid db ->
    BookSchema_validate body = inr book ->
    exists k : Z,
      snd (POST_books body db) =
        db ++ [BookModel.mk k (BookSchema.title book) (BookSchema.author book)] /\
      select_by_pk k (snd (POST_books body db)) =
        Some (BookModel.mk k (BookSchema.title book) (BookSchema.author book)) /\
      (forall r : BookModel.t, In r db -> BookModel.id r < k) /\
      (forall (k' : Z) (r : BookModel.t),
          select_by_pk k' db = Some r ->
          select_by_pk k' (snd (POST_books body db)) = Some r).
Proof.
  intros db body book Hdb Hbody. exists (next_rowid db).
  rewrite (POST_books_valid _ _ db Hbody). cbn [snd].
  split; [reflexivity|].
  split; [now apply select_by_pk_insert_row_new|].
  split; [apply next_rowid_above|].
  intros k' r. apply select_by_pk_insert_row_old.
Qed.

Lemma create_is_found_under_fresh_id_witness :
  below_largest_rowid [BookModel.mk 4 "Emma" "Austen"] /\
  BookSchema_validate (JObj [("title", JStr "Dune"); ("author", JStr "Herbert")])
  = inr (BookSchema.mk "Dune" "Herbert") /\
  exists k : Z,
    snd (POST_books (JObj [("title", JStr "Dune"); ("author", JStr "Herbert")])
           [BookModel.mk 4 "Emma" "Austen"]) =
      [BookModel.mk 4 "Emma" "Austen"] ++ [BookModel.mk k "Dune" "Herbert"] /\
    select_by_pk k
      (snd (POST_books (JObj [("title", JStr "Dune"); ("author", JStr "Herbert")])
              [BookModel.mk 4 "Emma" "Austen"])) =
      Some (BookModel.mk k "Dune" "Herbert") /\
    (forall r : BookModel.t,
        In r [BookModel.mk 4 "Emma" "Austen"] -> BookModel.id r < k) /\
    (forall (k' : Z) (r : BookModel.t),
        select_by_pk k' [BookModel.mk 4 "Emma" "Austen"] = Some r ->
        select_by_pk k'
          (snd (POST_books (JObj [("title", JStr "Dune"); ("author", JStr "Herbert")])
                  [BookModel.mk 4 "Emma" "Austen"])) = Some r).
Proof.
  assert (Hdb : below_largest_rowid [BookModel.mk 4 "Emma" "Austen"])
    by (repeat constructor; simpl; lia).
  split; [exact Hdb|]. split; [reflexivity|].
  exact (create_is_found_under_fresh_id [BookModel.mk 4 "Emma" "Austen"]
           (JObj [("title", JStr "Dune"); ("author", JStr "Herbert")])
           (BookSchema.mk "Dune" "Herbert") Hdb eq_refl).
Defined.

(** X4: on a table whose ids are all below the largest id SQLite has,
    deleting the book a POST has just created answers 200 and gives back
    the table as it was before the POST. *)
Theorem create_then_delete_restores :
  forall (db : Table) (body : json) (book : BookSchema.t),
    below_largest_rowid db ->
    BookSchema_validate body = inr book ->
    exists k : Z,
      snd (POST_books body db) =
        db ++ [BookModel.mk k (BookSchema.title book) (BookSchema.author book)] /\
      DELETE_books k (snd (POST_books body db)) =
        (JSONResponse 200 (detail_json (deleted_detail k)), db).
Proof.
  intros db body book Hdb Hbody. exists (next_rowid db).
  rewrite (POST_books_valid _ _ db Hbody). cbn [snd].
  split; [reflexivity|].
  rewrite (DELETE_books_found _ _ _ (select_by_pk_insert_row_new _ db Hdb)).
  now rewrite delete_row_insert_row.
Qed.

Lemma create_then_delete_restores_witness :
  below_largest_rowid [BookModel.mk 4 "Emma" "Austen"] /\
  BookSchema_validate (JObj [("title", JStr "Dune"); ("author", JStr "Herbert")])
  = inr (BookSchema.mk "Dune" "Herbert") /\
  exists k : Z,
    snd (POST_books (JObj [("title", JStr "Dune"); ("author", JStr "Herbert")])
           [BookModel.mk 4 "Emma" "Austen"]) =
      [BookModel.mk 4 "Emma" "Austen"] ++ [BookModel.mk k "Dune" "Herbert"] /\
    DELETE_books k
      (snd (POST_books (JObj [("title", JStr "Dune"); ("author", JStr "Herbert")])
              [BookModel.mk 4 "Emma" "Austen"])) =
      (JSONResponse 200 (detail_json (deleted_detail k)),
       [BookModel.mk 4 "Emma" "Austen"]).
Proof.
  assert (Hdb : below_largest_rowid [BookModel.mk 4 "Emma" "Austen"])
    by (repeat constructor; simpl; lia).
  split; [exact Hdb|]. split; [reflexivity|].
  exact (create_then_delete_restores [BookModel.mk 4 "Emma" "Austen"]
           (JObj [("title", JStr "Dune"); ("author", JStr "Herbert")])
           (BookSchema.mk "Dune" "Herbert") Hdb eq_refl).
Defined.

(** X5: ids are reused.  On a table whose ids are all below the largest id
    SQLite has, when the book a POST created is deleted again, the next
    POST stores its book under that same id. *)
Theorem deleted_last_id_is_reused :
  forall (db : Table) (body1 body2 : json) (book1 book2 : BookSchema.t),
    below_largest_rowid db ->
    BookSchema_validate body1 = inr book1 ->
    BookSchema_validate body2 = inr book2 ->
    exists k : Z,
      snd (POST_books body1 db) =
        db ++ [BookModel.mk k (BookSchema.title book1) (BookSchema.author book1)] /\
      snd (POST_books body2 (snd (DELETE_books k (snd (POST_books body1 db))))) =
        db ++ [BookModel.mk k (BookSchema.title book2) (BookSchema.author book2)].
Proof.
  intros db body1 body2 book1 book2 Hdb H1 H2. exists (next_rowid db).
  rewrite (POST_books_valid _ _ db H1). cbn [snd].
  split; [reflexivity|].
  rewrite (DELETE_books_found _ _ _ (select_by_pk_insert_row_new _ db Hdb)).
  cbn [snd]. rewrite delete_row_insert_row.
  now rewrite (POST_books_valid _ _ db H2).
Qed.

Lemma deleted_last_id_is_reused_witness :
  below_largest_rowid [BookModel.mk 4 "Emma" "Austen"] /\
  BookSchema_validate (JObj [("title", JStr "Dune"); ("author", JStr "Herbert")])
  = inr (BookSchema.mk "Dune" "Herbert") /\
  BookSchema_validate (JObj [("title", JStr "Ulysses"); ("author", JStr "Joyce")])
  = inr (BookSchema.mk "Ulysses" "Joyce") /\
  exists k : Z,
    snd (POST_books (JObj [("title", JStr "Dune"); ("author", JStr "Herbert")])
           [BookModel.mk 4 "Emma" "Austen"]) =
      [BookModel.mk 4 "Emma" "Austen"] ++ [BookModel.mk k "Dune" "Herbert"] /\
    snd (POST_books (JObj [("title", JStr "Ulysses"); ("author", JStr "Joyce")])
           (snd (DELETE_books k
                   (snd (POST_books
                           (JObj [("title", JStr "Dune"); ("author", JStr "Herbert")])
                           [BookModel.mk 4 "Emma" "Austen"]))))) =
      [BookModel.mk 4 "Emma" "Austen"] ++ [BookModel.mk k "Ulysses" "Joyce"].
Proof.
  assert (Hdb : below_largest_rowid [BookModel.mk 4 "Emma" "Austen"])
    by (repeat constructor; simpl; lia).
  split; [exact Hdb|]. split; [reflexivity|]. split; [reflexivity|].
  exact (deleted_last_id_is_reused [BookModel.mk 4 "Emma" "Austen"]
           (JObj [("title", JStr "Dune"); ("author", JStr "Herbert")])
           (JObj [("title", JStr "Ulysses"); ("author", JStr "Joyce")])
           (BookSchema.mk "Dune" "Herbert") (BookSchema.mk "Ulysses" "Joyce")
           Hdb eq_refl eq_refl).
Defined.

(** ** Delete and update, seen through the table and the list *)

(** X6: with unique ids, a successful DELETE takes exactly the row of that
    id out of the table and keeps all other rows in their order; every
    other id leads to what it led to before. *)
Theorem delete_removes_only_that_row :
  forall (db : Table) (book_id : Z) (old : BookModel.t),
    unique_ids db ->
    select_by_pk book_id db = Some old ->
    exists before after : Table,
      db = before ++ old :: after /\
      snd (DELETE_books book_id db) = before ++ after /\
      (forall k : Z,
          k <> book_id ->
          select_by_pk k (snd (DELETE_books book_id db)) = select_by_pk k db).
Proof.
  intros db book_id old Hu Hsel.
  destruct (delete_row_unique_split _ _ _ Hu Hsel) as (before & after & Hdb & Hdel).
  exists before, after. rewrite (DELETE_books_found _ _ _ Hsel). cbn [snd].
  repeat split; try assumption.
  intros k Hk. now apply select_by_pk_delete_other.
Qed.

Lemma delete_removes_only_that_row_witness :
  unique_ids [BookModel.mk 1 "Dune" "Herbert"; BookModel.mk 2 "Emma" "Austen";
              BookModel.mk 3 "Ulysses" "Joyce"] /\
  select_by_pk 2 [BookModel.mk 1 "Dune" "Herbert"; BookModel.mk 2 "Emma" "Austen";
                  BookModel.mk 3 "Ulysses" "Joyce"]
  = Some (BookModel.mk 2 "Emma" "Austen") /\
  exists before after : Table,
    [BookModel.mk 1 "Dune" "Herbert"; BookModel.mk 2 "Emma" "Austen";
     BookModel.mk 3 "Ulysses" "Joyce"] = before ++ BookModel.mk 2 "Emma" "Austen" :: after /\
    snd (DELETE_books 2 [BookModel.mk 1 "Dune" "Herbert"; BookModel.mk 2 "Emma" "Austen";
                         BookModel.mk 3 "Ulysses" "Joyce"]) = before ++ after /\
    (forall k : Z,
        k <> 2 ->
        select_by_pk k
          (snd (DELETE_books 2 [BookModel.mk 1 "Dune" "Herbert";
                                BookModel.mk 2 "Emma" "Austen";
                                BookModel.mk 3 "Ulysses" "Joyce"])) =
        select_by_pk k [BookModel.mk 1 "Dune" "Herbert"; BookModel.mk 2 "Emma" "Austen";
                        BookModel.mk 3 "Ulysses" "Joyce"]).
Proof.
  assert (Hu : unique_ids [BookModel.mk 1 "Dune" "Herbert"; BookModel.mk 2 "Emma" "Austen";
                           BookModel.mk 3 "Ulysses" "Joyce"]).
  { unfold unique_ids. simpl. repeat constructor; simpl; intuition discriminate. }
  split; [exact Hu|]. split; [reflexivity|].
  exact (delete_removes_only_that_row _ 2 (BookModel.mk 2 "Emma" "Austen") Hu eq_refl).
Defined.

(** A page holds rows of the table only. *)
Lemma page_In (r : BookModel.t) (n m : nat) (rows : Table) :
  In r (firstn n (skipn m rows)) -> In r rows.
Proof.
  intros H. rewrite <- (firstn_skipn m rows). apply in_or_app. right.
  rewrite <- (firstn_skipn n (skipn m rows)). apply in_or_app. now left.
Qed.

(** X7: after a successful PUT, a GET with offset 0 and a limit that covers
    the table lists the record exactly as the PUT answered it, among as
    many records as before. *)
Theorem update_then_list_shows_update :
  forall (parse_int : string -> option Z) (db : Table) (book_id : Z)
         (body : json) (book_data : BookUpdateSchema.t) (old : BookModel.t)
         (limit offset : option string) (pagination : PaginationParams.t),
    select_by_pk book_id db = Some old ->
    BookUpdateSchema_validate body = inr book_data ->
    PaginationParams_validate parse_int limit offset = inr pagination ->
    PaginationParams.offset pagination = 0 ->
    Z.of_nat (List.length db) <= PaginationParams.limit pagination ->
    exists (content : json) (items : list json),
      fst (PUT_books book_id body db) = JSONResponse 200 content /\
      fst (GET_books parse_int limit offset (snd (PUT_books book_id body db)))
      = JSONResponse 200 (JList items) /\
      In content items /\
      List.length items = List.length db.
Proof.
  intros parse_int db book_id body book_data old limit offset pagination
         Hsel Hbody Hv Ho Hlen.
  rewrite (PUT_books_found _ _ _ _ _ Hbody Hsel). cbn [fst snd].
  set (new := assigned book_data old).
  set (db' := update_row (mkLoaded old new) db).
  assert (Hlen' : List.length db' = List.length db) by apply update_row_length.
  exists (book_json new), (map book_json db'). split; [reflexivity|].
  rewrite (GET_books_valid _ _ _ _ db' Hv) by lia. rewrite Ho.
  change (skipn (Z.to_nat 0) db') with db'. rewrite firstn_all2 by lia.
  split; [reflexivity|]. split; [|now rewrite length_map].
  apply in_map. apply select_by_pk_In with book_id.
  now apply select_by_pk_update_row.
Qed.

Lemma update_then_list_shows_update_witness :
  select_by_pk 1 [BookModel.mk 1 "Dune" "Herbert"]
  = Some (BookModel.mk 1 "Dune" "Herbert") /\
  BookUpdateSchema_validate (JObj [("author", JStr "F. Herbert")])
  = inr (BookUpdateSchema.mk None (Some "F. Herbert")) /\
  PaginationParams_validate decimal None None = inr (PaginationParams.mk 20 0) /\
  exists (content : json) (items : list json),
    fst (PUT_books 1 (JObj [("author", JStr "F. Herbert")])
           [BookModel.mk 1 "Dune" "Herbert"]) = JSONResponse 200 content /\
    fst (GET_books decimal None None
           (snd (PUT_books 1 (JObj [("author", JStr "F. Herbert")])
                   [BookModel.mk 1 "Dune" "Herbert"])))
    = JSONResponse 200 (JList items) /\
    In content items /\
    List.length items = List.length [BookModel.mk 1 "Dune" "Herbert"].
Proof.
  split; [reflexivity|]. split; [reflexivity|]. split; [reflexivity|].
  refine (update_then_list_shows_update decimal [BookModel.mk 1 "Dune" "Herbert"] 1
            (JObj [("author", JStr "F. Herbert")])
            (BookUpdateSchema.mk None (Some "F. Herbert"))
            (BookModel.mk 1 "Dune" "Herbert") None None (PaginationParams.mk 20 0)
            eq_refl eq_refl eq_refl eq_refl _).
  simpl. lia.
Defined.

(** X8: after a DELETE of an id that SQLite can hold, whatever it
    answered, a valid GET with an offset below 2^63 answers 200 with a list
    that has no record of that id. *)
Theorem delete_then_list_omits_id :
  forall (parse_int : string -> option Z) (db : Table) (book_id : Z)
         (limit offset : option string) (pagination : PaginationParams.t),
    -9223372036854775808 <= book_id < 9223372036854775808 ->
    PaginationParams_validate parse_int limit offset = inr pagination ->
    PaginationParams.offset pagination < 9223372036854775808 ->
    exists rows : Table,
      fst (GET_books parse_int limit offset (snd (DELETE_books book_id db)))
      = JSONResponse 200 (JList (map book_json rows)) /\
      (forall r : BookModel.t, In r rows -> BookModel.id r <> book_id).
Proof.
  intros parse_int db book_id limit offset pagination Hk Hv Ho.
  apply int64_spec in Hk.
  eexists. rewrite (GET_books_valid _ _ _ _ _ Hv Ho). split; [reflexivity|].
  intros r Hr. apply page_In in Hr.
  destruct (select_by_pk book_id db) as [old|] eqn:Hsel.
  - rewrite (DELETE_books_found _ _ _ Hsel) in Hr. cbn [snd] in Hr.
    apply filter_In in Hr. destruct Hr as [_ Hr].
    apply has_id_neq. now destruct (has_id book_id r).
  - rewrite (DELETE_books_missing _ _ Hk Hsel) in Hr. cbn [snd] in Hr.
    now apply (select_by_pk_None_inv _ _ Hk Hsel).
Qed.

Lemma delete_then_list_omits_id_witness :
  -9223372036854775808 <= 1 < 9223372036854775808 /\
  PaginationParams_validate decimal None None = inr (PaginationParams.mk 20 0) /\
  0 < 9223372036854775808 /\
  exists rows : Table,
    fst (GET_books decimal None None
           (snd (DELETE_books 1 [BookModel.mk 1 "Dune" "Herbert";
                                 BookModel.mk 2 "Emma" "Austen"])))
    = JSONResponse 200 (JList (map book_json rows)) /\
    (forall r : BookModel.t, In r rows -> BookModel.id r <> 1).
Proof.
  split; [lia|]. split; [reflexivity|]. split; [lia|].
  refine (delete_then_list_omits_id decimal
            [BookModel.mk 1 "Dune" "Herbert"; BookModel.mk 2 "Emma" "Austen"] 1
            None None (PaginationParams.mk 20 0) _ eq_refl _); simpl; lia.
Defined.

(** X15: a PUT whose body supplies only values the record already has
    answers with the record and leaves the table exactly as it was. *)
Theorem update_with_current_values_changes_nothing :
  forall (db : Table) (book_id : Z) (old : BookModel.t)
         (body : json) (book_data : BookUpdateSchema.t),
    select_by_pk book_id db = Some old ->
    BookUpdateSchema_validate body = inr book_data ->
    (BookUpdateSchema.title book_data = None \/
     BookUpdateSchema.title book_data = Some (BookModel.title old)) ->
    (BookUpdateSchema.author book_data = None \/
     BookUpdateSchema.author book_data = Some (BookModel.author old)) ->
    PUT_books book_id body db = (JSONResponse 200 (book_json old), db).
Proof.
  intros db book_id old body book_data Hsel Hbody Ht Ha.
  rewrite (PUT_books_found _ _ _ _ _ Hbody Hsel).
  assert (Hsame : assigned book_data old = old).
  { unfold assigned. destruct old as [i t a]. simpl in *.
    destruct Ht as [-> | ->], Ha as [-> | ->]; reflexivity. }
  now rewrite Hsame, update_row_same.
Qed.

Lemma update_with_current_values_changes_nothing_witness :
  select_by_pk 1 [BookModel.mk 1 "Dune" "Herbert"]
  = Some (BookModel.mk 1 "Dune" "Herbert") /\
  BookUpdateSchema_validate (JObj [("title", JStr "Dune")])
  = inr (BookUpdateSchema.mk (Some "Dune") None) /\
  PUT_books 1 (JObj [("title", JStr "Dune")]) [BookModel.mk 1 "Dune" "Herbert"] =
  (JSONResponse 200 (book_json (BookModel.mk 1 "Dune" "Herbert")),
   [BookModel.mk 1 "Dune" "Herbert"]).
Proof.
  split; [reflexivity|]. split; [reflexivity|].
  exact (update_with_current_values_changes_nothing
           [BookModel.mk 1 "Dune" "Herbert"] 1 (BookModel.mk 1 "Dune" "Herbert")
           (JObj [("title", JStr "Dune")]) (BookUpdateSchema.mk (Some "Dune") None)
           eq_refl eq_refl (or_intror eq_refl) (or_introl eq_refl)).
Defined.

(** ** Pages *)

Lemma firstn_add {A} (n m : nat) (l : list A) :
  firstn (n + m) l = firstn n l ++ firstn m (skipn n l).
Proof.
  revert l. induction n as [|n IH]; intros l; [reflexivity|].
  destruct l as [|x l]; simpl.
  - now rewrite firstn_nil.
  - now rewrite IH.
Qed.

Lemma skipn_In {A} (x : A) (n : nat) (l : list A) :
  In x (skipn n l) -> In x l.
Proof.
  intros H. rewrite <- (firstn_skipn n l). apply in_or_app. now right.
Qed.

Lemma In_firstn {A} (x : A) (n : nat) (l : list A) :
  In x (firstn n l) -> In x l.
Proof.
  intros H. rewrite <- (firstn_skipn n l). apply in_or_app. now left.
Qed.

Lemma NoDup_app_disjoint {A} (l l' : list A) (x : A) :
  NoDup (l ++ l') -> In x l -> In x l' -> False.
Proof.
  induction l as [|y l IH]; [easy|].
  simpl. intros Hnd [-> | Hx] Hx'; inversion Hnd as [|? ? Hnotin Hrest]; subst.
  - apply Hnotin, in_or_app. now right.
  - now apply IH.
Qed.

Lemma get_books_run_int64 (l o : Z) (db : Table) :
  -9223372036854775808 <= l < 9223372036854775808 ->
  -9223372036854775808 <= o < 9223372036854775808 ->
  get_session (get_books (PaginationParams.mk l o)) db =
  (Return (select_limit_offset l o db), db).
Proof.
  intros Hl Ho. rewrite get_books_run.
  cbn [PaginationParams.limit PaginationParams.offset].
  now rewrite (proj2 (int64_spec l) Hl), (proj2 (int64_spec o) Ho).
Qed.

(** X9: pages join up.  For limits and offsets that SQLite can hold, the
    page of l rows at offset o followed by the page of l' rows at offset
    o + l is the page of l + l' rows at offset o: going from page to page
    loses no row and repeats none. *)
Theorem adjacent_pages_join :
  forall (db : Table) (l l' o : Z),
    0 <= l -> 0 <= l' -> 0 <= o ->
    l + l' < 9223372036854775808 ->
    o + l < 9223372036854775808 ->
    exists rows rows' : Table,
      get_session (get_books (PaginationParams.mk l o)) db = (Return rows, db) /\
      get_session (get_books (PaginationParams.mk l' (o + l))) db = (Return rows', db) /\
      get_session (get_books (PaginationParams.mk (l + l') o)) db
      = (Return (rows ++ rows'), db).
Proof.
  intros db l l' o Hl Hl' Ho Hll Hol. rewrite !get_books_run_int64 by lia.
  unfold select_limit_offset.
  rewrite !(proj2 (Z.ltb_ge _ _)) by lia.
  do 2 eexists. split; [reflexivity|]. split; [reflexivity|].
  rewrite !Z2Nat.inj_add by lia.
  now rewrite firstn_add, skipn_skipn, (Nat.add_comm (Z.to_nat l)).
Qed.

Lemma adjacent_pages_join_witness :
  0 <= 1 /\ 0 <= 2 /\ 0 <= 0 /\
  1 + 2 < 9223372036854775808 /\ 0 + 1 < 9223372036854775808 /\
  exists rows rows' : Table,
    get_session (get_books (PaginationParams.mk 1 0))
      [BookModel.mk 1 "Dune" "Herbert"; BookModel.mk 2 "Emma" "Austen";
       BookModel.mk 3 "Ulysses" "Joyce"]
    = (Return rows, [BookModel.mk 1 "Dune" "Herbert"; BookModel.mk 2 "Emma" "Austen";
                     BookModel.mk 3 "Ulysses" "Joyce"]) /\
    get_session (get_books (PaginationParams.mk 2 (0 + 1)))
      [BookModel.mk 1 "Dune" "Herbert"; BookModel.mk 2 "Emma" "Austen";
       BookModel.mk 3 "Ulysses" "Joyce"]
    = (Return rows', [BookModel.mk 1 "Dune" "Herbert"; BookModel.mk 2 "Emma" "Austen";
                      BookModel.mk 3 "Ulysses" "Joyce"]) /\
    get_session (get_books (PaginationParams.mk (1 + 2) 0))
      [BookModel.mk 1 "Dune" "Herbert"; BookModel.mk 2 "Emma" "Austen";
       BookModel.mk 3 "Ulysses" "Joyce"]
    = (Return (rows ++ rows'),
       [BookModel.mk 1 "Dune" "Herbert"; BookModel.mk 2 "Emma" "Austen";
        BookModel.mk 3 "Ulysses" "Joyce"]).
Proof.
  split; [lia|]. split; [lia|]. split; [lia|]. split; [lia|]. split; [lia|].
  refine (adjacent_pages_join
            [BookModel.mk 1 "Dune" "Herbert"; BookModel.mk 2 "Emma" "Austen";
             BookModel.mk 3 "Ulysses" "Joyce"] 1 2 0 _ _ _ _ _); lia.
Defined.

(** X10: with unique ids, two pages that do not overlap (the second starts
    at or after the end of the first), asked for with limits and offsets
    that SQLite can hold, have no id in common. *)
Theorem separate_pages_share_no_id :
  forall (db : Table) (l l' o o' : Z),
    unique_ids db ->
    0 <= l -> 0 <= o -> o + l <= o' ->
    l < 9223372036854775808 ->
    o' < 9223372036854775808 ->
    -9223372036854775808 <= l' < 9223372036854775808 ->
    exists rows rows' : Table,
      get_session (get_books (PaginationParams.mk l o)) db = (Return rows, db) /\
      get_session (get_books (PaginationParams.mk l' o')) db = (Return rows', db) /\
      (forall r r' : BookModel.t,
          In r rows -> In r' rows' -> BookModel.id r <> BookModel.id r').
Proof.
  intros db l l' o o' Hu Hl Ho Ho' Hlb Hob Hlb'. rewrite !get_books_run_int64 by lia.
  unfold select_limit_offset.
  rewrite (proj2 (Z.ltb_ge l 0)) by lia.
  do 2 eexists. split; [reflexivity|]. split; [reflexivity|].
  intros r r' Hr Hr' Hid.
  set (n := Z.to_nat o) in *. set (m := Z.to_nat l) in *.
  assert (Htail : In r' (skipn m (skipn n db))).
  { assert (Hskip : In r' (skipn (Z.to_nat o') db))
      by (destruct (l' <? 0); [exact Hr' | eapply In_firstn, Hr']).
    replace (Z.to_nat o') with ((Z.to_nat o' - (m + n)) + (m + n))%nat in Hskip
      by (unfold m, n; lia).
    rewrite <- skipn_skipn in Hskip. apply skipn_In in Hskip.
    now rewrite skipn_skipn. }
  unfold unique_ids in Hu.
  rewrite <- (firstn_skipn n db), map_app in Hu. apply NoDup_app_remove_l in Hu.
  rewrite <- (firstn_skipn m (skipn n db)), map_app in Hu.
  apply (NoDup_app_disjoint _ _ (BookModel.id r) Hu).
  - now apply in_map.
  - rewrite Hid. now apply in_map.
Qed.

Lemma separate_pages_share_no_id_witness :
  unique_ids [BookModel.mk 1 "Dune" "Herbert"; BookModel.mk 2 "Emma" "Austen"] /\
  0 <= 1 /\ 0 <= 0 /\ 0 + 1 <= 1 /\
  1 < 9223372036854775808 /\ 1 < 9223372036854775808 /\
  -9223372036854775808 <= 1 < 9223372036854775808 /\
  exists rows rows' : Table,
    get_session (get_books (PaginationParams.mk 1 0))
      [BookModel.mk 1 "Dune" "Herbert"; BookModel.mk 2 "Emma" "Austen"]
    = (Return rows, [BookModel.mk 1 "Dune" "Herbert"; BookModel.mk 2 "Emma" "Austen"]) /\
    get_session (get_books (PaginationParams.mk 1 1))
      [BookModel.mk 1 "Dune" "Herbert"; BookModel.mk 2 "Emma" "Austen"]
    = (Return rows', [BookModel.mk 1 "Dune" "Herbert"; BookModel.mk 2 "Emma" "Austen"]) /\
    (forall r r' : BookModel.t,
        In r rows -> In r' rows' -> BookModel.id r <> BookModel.id r').
Proof.
  assert (Hu : unique_ids [BookModel.mk 1 "Dune" "Herbert"; BookModel.mk 2 "Emma" "Austen"]).
  { unfold unique_ids. simpl. repeat constructor; simpl; intuition discriminate. }
  split; [exact Hu|]. split; [lia|]. split; [lia|]. split; [lia|].
  split; [lia|]. split; [lia|]. split; [lia|].
  refine (separate_pages_share_no_id
            [BookModel.mk 1 "Dune" "Herbert"; BookModel.mk 2 "Emma" "Austen"]
            1 1 0 1 Hu _ _ _ _ _ _); lia.
Defined.

(** X16: every stored row can be fetched on its own: the request with
    limit 1 and the row's position as offset is valid and answers 200 with
    exactly that row. *)
Theorem every_row_has_a_page :
  forall (parse_int : string -> option Z) (db : Table) (i : nat) (r : BookModel.t)
         (limit offset : string),
    nth_error db i = Some r ->
    parse_int limit = Some 1 ->
    parse_int offset = Some (Z.of_nat i) ->
    GET_books parse_int (Some limit) (Some offset) db =
    (JSONResponse 200 (JList [book_json r]), db).
Proof.
  intros parse_int db i r limit offset Hr Hl Ho.
  assert (Hv : PaginationParams_validate parse_int (Some limit) (Some offset)
               = inr (PaginationParams.mk 1 (Z.of_nat i))).
  { apply PaginationParams_validate_inr. split; apply validate_field_Valid; right.
    - exists limit. now repeat split.
    - exists offset. repeat split; try assumption. simpl. apply Z.leb_le. lia. }
  assert (Hi : (i < List.length db)%nat)
    by (apply nth_error_Some; rewrite Hr; discriminate).
  rewrite (GET_books_within _ _ _ _ db Hv)
    by (unfold within_rows; cbn [PaginationParams.offset];
        apply andb_true_intro; split; [apply Z.leb_le | apply Z.ltb_lt]; lia).
  cbn [PaginationParams.limit PaginationParams.offset]. rewrite Nat2Z.id.
  pose proof (hd_error_skipn i db) as Hhd. rewrite Hr in Hhd.
  destruct (skipn i db) as [|x rest]; [discriminate|].
  injection Hhd as ->. reflexivity.
Qed.

Lemma every_row_has_a_page_witness :
  nth_error [BookModel.mk 1 "Dune" "Herbert"; BookModel.mk 2 "Emma" "Austen"] 1
  = Some (BookModel.mk 2 "Emma" "Austen") /\
  decimal "1" = Some 1 /\
  GET_books decimal (Some "1") (Some "1")
    [BookModel.mk 1 "Dune" "Herbert"; BookModel.mk 2 "Emma" "Austen"] =
  (JSONResponse 200 (JList [book_json (BookModel.mk 2 "Emma" "Austen")]),
   [BookModel.mk 1 "Dune" "Herbert"; BookModel.mk 2 "Emma" "Austen"]).
Proof.
  split; [reflexivity|]. split; [reflexivity|].
  exact (every_row_has_a_page decimal
           [BookModel.mk 1 "Dune" "Herbert"; BookModel.mk 2 "Emma" "Austen"] 1%nat
           (BookModel.mk 2 "Emma" "Austen") "1" "1" eq_refl eq_refl eq_refl).
Defined.


(** ** Outcomes of the writing routes *)


(** X13: a POST whose body lacks "title" or "author" (or is no object at
    all) is refused with a validation error that names at least one field,
    and nothing is stored. *)
Theorem create_requires_both_fields :
  forall (db : Table) (body : json),
    json_get "title" body = None \/ json_get "author" body = None ->
    exists loc : list string,
      loc <> [] /\ POST_books body db = (RequestValidationError loc, db).
Proof.
  intros db body H. unfold POST_books.
  destruct body as [| | | | |fields];
    try (exists ["body"]; split; [discriminate | reflexivity]).
  simpl in H. unfold BookSchema_validate.
  destruct (dict_get "title" fields) as [[| | |t| |]|],
           (dict_get "author" fields) as [[| | |a| |]|];
    try (destruct H; discriminate);
    (eexists; split; [|reflexivity]; discriminate).
Qed.

Lemma create_requires_both_fields_witness :
  (json_get "title" (JObj [("author", JStr "Herbert")]) = None \/
   json_get "author" (JObj [("author", JStr "Herbert")]) = None) /\
  exists loc : list string,
    loc <> [] /\
    POST_books (JObj [("author", JStr "Herbert")]) [BookModel.mk 1 "Emma" "Austen"]
    = (RequestValidationError loc, [BookModel.mk 1 "Emma" "Austen"]).
Proof.
  split; [left; reflexivity|].
  exact (create_requires_both_fields [BookModel.mk 1 "Emma" "Austen"]
           (JObj [("author", JStr "Herbert")]) (or_introl eq_refl)).
Defined.

(** X14: in a PUT body an explicit null counts as an omitted field: adding
    "title": null or "author": null to a body that lacks the field changes
    neither the answer nor the table, so no field can be cleared. *)
Theorem update_null_is_omitted :
  forall (db : Table) (book_id : Z) (fields : list (string * json)),
    (dict_get "title" fields = None ->
     PUT_books book_id (JObj (("title", JNull) :: fields)) db
     = PUT_books book_id (JObj fields) db) /\
    (dict_get "author" fields = None ->
     PUT_books book_id (JObj (("author", JNull) :: fields)) db
     = PUT_books book_id (JObj fields) db).
Proof.
  intros db book_id fields. split; intros H; unfold PUT_books, BookUpdateSchema_validate.
  - change (dict_get "title" (("title", JNull) :: fields))
      with (match dict_get "title" fields with
            | Some v' => Some v'
            | None => Some JNull
            end).
    change (dict_get "author" (("title", JNull) :: fields))
      with (match dict_get "author" fields with
            | Some v' => Some v'
            | None => None
            end).
    rewrite H. now destruct (dict_get "author" fields).
  - change (dict_get "author" (("author", JNull) :: fields))
      with (match dict_get "author" fields with
            | Some v' => Some v'
            | None => Some JNull
            end).
    change (dict_get "title" (("author", JNull) :: fields))
      with (match dict_get "title" fields with
            | Some v' => Some v'
            | None => None
            end).
    rewrite H. now destruct (dict_get "title" fields).
Qed.

Example update_null_title :
  PUT_books 1 (JObj [("title", JNull); ("author", JStr "F. Herbert")])
    [BookModel.mk 1 "Dune" "Herbert"] =
  (JSONResponse 200
     (JObj [("id", JInt 1); ("title", JStr "Dune"); ("author", JStr "F. Herbert")]),
   [BookModel.mk 1 "Dune" "F. Herbert"]).
Proof. reflexivity. Qed.

(** ** Tables that requests can produce *)

Lemma ascending_ids_app (rows rows' : Table) :
  ascending_ids (rows ++ rows') -> ascending_ids rows /\ ascending_ids rows'.
Proof.
  unfold ascending_ids. induction rows as [|r rows IH]; simpl; intros H.
  - split; [constructor | exact H].
  - apply StronglySorted_inv in H. destruct H as [Hs Hf].
    apply Forall_app in Hf. destruct (IH Hs) as [H1 H2].
    split; [constructor; tauto | exact H2].
Qed.

Lemma ascending_ids_page (n m : nat) (rows : Table) :
  ascending_ids rows -> ascending_ids (firstn n (skipn m rows)).
Proof.
  intros H. rewrite <- (firstn_skipn m rows) in H.
  apply ascending_ids_app in H. destruct H as [_ H].
  rewrite <- (firstn_skipn n (skipn m rows)) in H.
  now apply ascending_ids_app in H.
Qed.

Lemma ascending_ids_unique (rows : Table) :
  ascending_ids rows -> unique_ids rows.
Proof.
  unfold ascending_ids, unique_ids. induction 1 as [|r rows Hs IH Hf]; simpl.
  - constructor.
  - constructor; [|exact IH]. intros Hin. apply in_map_iff in Hin.
    destruct Hin as (r' & Hid & Hr'). rewrite Forall_forall in Hf.
    specialize (Hf r' Hr'). lia.
Qed.

Lemma ascending_ids_snoc (rows : Table) (row : BookModel.t) :
  ascending_ids rows ->
  (forall r, In r rows -> BookModel.id r < BookModel.id row) ->
  ascending_ids (rows ++ [row]).
Proof.
  unfold ascending_ids. induction 1 as [|r rows Hs IH Hf]; simpl; intros Hbelow.
  - repeat constructor.
  - constructor.
    + apply IH. intros r' Hr'. apply Hbelow. now right.
    + apply Forall_app. split; [exact Hf|]. constructor; [|constructor].
      apply Hbelow. now left.
Qed.

Lemma insert_row_ascending (b : string * string) (rows : Table) :
  ascending_ids rows -> ascending_ids (insert_row b rows).
Proof.
  intros H. unfold insert_row. apply ascending_ids_snoc; [exact H|].
  intros r Hr. simpl. now apply next_rowid_above.
Qed.

Lemma update_row_ascending (o : Loaded) (rows : Table) :
  ascending_ids rows -> ascending_ids (update_row o rows).
Proof.
  unfold ascending_ids, update_row.
  set (g := fun r : BookModel.t => if has_id _ r then _ else r).
  assert (Hg : forall r, BookModel.id (g r) = BookModel.id r)
    by (intros r; unfold g; now destruct (has_id _ _)).
  induction 1 as [|r rows Hs IH Hf]; simpl; constructor; [exact IH|].
  rewrite Forall_forall in *. intros r' Hr'. apply in_map_iff in Hr'.
  destruct Hr' as (r0 & <- & Hr0). rewrite !Hg. now apply Hf.
Qed.

Lemma delete_row_ascending (k : Z) (rows : Table) :
  ascending_ids rows -> ascending_ids (delete_row k rows).
Proof.
  unfold ascending_ids, delete_row.
  induction 1 as [|r rows Hs IH Hf]; simpl; [constructor|].
  destruct (negb (has_id k r)); [|exact IH].
  constructor; [exact IH|].
  rewrite Forall_forall in *. intros r' Hr'. apply filter_In in Hr'.
  now apply Hf.
Qed.

Lemma insert_row_positive (b : string * string) (rows : Table) :
  positive_ids rows -> positive_ids (insert_row b rows).
Proof.
  unfold positive_ids, insert_row. intros H. apply Forall_app. split; [exact H|].
  constructor; [|constructor]. simpl.
  destruct rows as [|r rows]; [reflexivity|].
  inversion H; subst.
  pose proof (next_rowid_above (r :: rows) r (or_introl eq_refl)). lia.
Qed.

Lemma update_row_positive (o : Loaded) (rows : Table) :
  positive_ids rows -> positive_ids (update_row o rows).
Proof.
  unfold positive_ids, update_row. intros H.
  rewrite Forall_forall in *. intros r' Hr'. apply in_map_iff in Hr'.
  destruct Hr' as (r & <- & Hr). specialize (H r Hr).
  now destruct (has_id _ _).
Qed.

Lemma delete_row_positive (k : Z) (rows : Table) :
  positive_ids rows -> positive_ids (delete_row k rows).
Proof.
  unfold positive_ids, delete_row. intros H.
  rewrite Forall_forall in *. intros r Hr. apply filter_In in Hr. now apply H.
Qed.

(** One request keeps the table in ascending order of positive ids. *)
Lemma app_keeps_order (parse_int : string -> option Z) (request : Request) (db : Table) :
  ascending_ids db /\ positive_ids db ->
  ascending_ids (snd (app parse_int request db)) /\
  positive_ids (snd (app parse_int request db)).
Proof.
  intros [Ha Hp]. destruct request as [|body|limit offset|book_id body|book_id]; simpl.
  - split; constructor.
  - unfold POST_books.
    destruct (BookSchema_validate body) as [loc|book]; [now split|].
    rewrite add_book_run. cbn [respond snd].
    split; [now apply insert_row_ascending | now apply insert_row_positive].
  - now rewrite GET_books_table.
  - unfold PUT_books.
    destruct (BookUpdateSchema_validate body) as [loc|book_data]; [now split|].
    rewrite update_book_run.
    destruct (select_by_pk book_id db); [|now destruct (int64 book_id)].
    cbn [respond snd].
    split; [now apply update_row_ascending | now apply update_row_positive].
  - unfold DELETE_books. rewrite delete_book_run.
    destruct (select_by_pk book_id db); [|now destruct (int64 book_id)].
    cbn [respond snd].
    split; [now apply delete_row_ascending | now apply delete_row_positive].
Qed.

Lemma serve_keeps_order (parse_int : string -> option Z) (requests : list Request)
      (db : Table) :
  ascending_ids db /\ positive_ids db ->
  ascending_ids (serve parse_int requests db) /\
  positive_ids (serve parse_int requests db).
Proof.
  unfold serve. revert db. induction requests as [|q requests IH]; intros db H.
  - exact H.
  - simpl. apply IH. now apply app_keeps_order.
Qed.

(** X17: whatever requests are served from the empty table on, in whatever
    order (creates, updates, deletes, further setups), the table stays in
    strictly ascending order of id, its ids are unique and all are at
    least 1. *)
Theorem served_table_has_ascending_ids :
  forall (parse_int : string -> option Z) (requests : list Request),
    ascending_ids (serve parse_int requests []) /\
    unique_ids (serve parse_int requests []) /\
    positive_ids (serve parse_int requests []).
Proof.
  intros parse_int requests.
  destruct (serve_keeps_order parse_int requests []) as [Ha Hp];
    [split; constructor|].
  split; [exact Ha|]. split; [now apply ascending_ids_unique | exact Hp].
Qed.

(** X18: on a table that requests have produced from the empty one, every
    valid GET with an offset below 2^63 answers 200 with its records in
    strictly ascending order of id. *)
Theorem list_is_in_ascending_id_order :
  forall (parse_int : string -> option Z) (requests : list Request)
         (limit offset : option string) (pagination : PaginationParams.t),
    PaginationParams_validate parse_int limit offset = inr pagination ->
    PaginationParams.offset pagination < 9223372036854775808 ->
    exists rows : Table,
      fst (GET_books parse_int limit offset (serve parse_int requests []))
      = JSONResponse 200 (JList (map book_json rows)) /\
      ascending_ids rows.
Proof.
  intros parse_int requests limit offset pagination Hv Ho.
  eexists. rewrite (GET_books_valid _ _ _ _ _ Hv Ho). split; [reflexivity|].
  apply ascending_ids_page.
  apply (serve_keeps_order parse_int requests []). split; constructor.
Qed.

Lemma list_is_in_ascending_id_order_witness :
  PaginationParams_validate decimal (Some "2") None = inr (PaginationParams.mk 2 0) /\
  0 < 9223372036854775808 /\
  exists rows : Table,
    fst (GET_books decimal (Some "2") None
           (serve decimal
              [Post_books (JObj [("title", JStr "Dune"); ("author", JStr "Herbert")]);
               Post_books (JObj [("title", JStr "Emma"); ("author", JStr "Austen")]);
               Delete_books 1;
               Post_books (JObj [("title", JStr "Ulysses"); ("author", JStr "Joyce")])]
              []))
    = JSONResponse 200 (JList (map book_json rows)) /\
    ascending_ids rows.
Proof.
  split; [reflexivity|]. split; [lia|].
  refine (list_is_in_ascending_id_order decimal
            [Post_books (JObj [("title", JStr "Dune"); ("author", JStr "Herbert")]);
             Post_books (JObj [("title", JStr "Emma"); ("author", JStr "Austen")]);
             Delete_books 1;
             Post_books (JObj [("title", JStr "Ulysses"); ("author", JStr "Joyce")])]
            (Some "2") None (PaginationParams.mk 2 0) eq_refl _).
  simpl. lia.
Defined.

Example serve_four_requests :
  serve decimal
    [Post_books (JObj [("title", JStr "Dune"); ("author", JStr "Herbert")]);
     Post_books (JObj [("title", JStr "Emma"); ("author", JStr "Austen")]);
     Delete_books 1;
     Post_books (JObj [("title", JStr "Ulysses"); ("author", JStr "Joyce")])] []
  = [BookModel.mk 2 "Emma" "Austen"; BookModel.mk 3 "Ulysses" "Joyce"].
Proof. reflexivity. Qed.

Lemma routes_keep_ids_unique_witness :
  unique_ids [BookModel.mk 2 "Emma" "Austen"; BookModel.mk 5 "Dune" "Herbert"] /\
  (forall body,
      unique_ids (snd (POST_books body
                         [BookModel.mk 2 "Emma" "Austen"; BookModel.mk 5 "Dune" "Herbert"]))) /\
  (forall limit offset,
      snd (GET_books decimal limit offset
             [BookModel.mk 2 "Emma" "Austen"; BookModel.mk 5 "Dune" "Herbert"])
      = [BookModel.mk 2 "Emma" "Austen"; BookModel.mk 5 "Dune" "Herbert"]) /\
  (forall book_id body,
      unique_ids (snd (PUT_books book_id body
                         [BookModel.mk 2 "Emma" "Austen"; BookModel.mk 5 "Dune" "Herbert"]))) /\
  (forall book_id,
      unique_ids (snd (DELETE_books book_id
                         [BookModel.mk 2 "Emma" "Austen"; BookModel.mk 5 "Dune" "Herbert"]))).
Proof.
  assert (Hu : unique_ids [BookModel.mk 2 "Emma" "Austen"; BookModel.mk 5 "Dune" "Herbert"]).
  { unfold unique_ids. simpl. repeat constructor; simpl; intuition discriminate. }
  split; [exact Hu|].
  exact (routes_keep_ids_unique decimal _ Hu).
Defined.

(** ** The text of the delete confirmation *)

Lemma decimal_str (n : Z) : decimal (str n) = Some n.
Proof.
  unfold decimal, str. rewrite NilZero.isi.
  - simpl. now rewrite DecimalZ.of_to.
  - destruct n as [|p|p]; try discriminate.
    intros H. injection H as H. now apply DecimalPos.Unsigned.to_uint_nonnil in H.
  - destruct n as [|p|p]; try discriminate.
    intros H. injection H as H. now apply DecimalPos.Unsigned.to_uint_nonnil in H.
Qed.

Lemma append_length (s t : string) :
  String.length (s ++ t)%string = (String.length s + String.length t)%nat.
Proof. induction s as [|c s IH]; simpl; [reflexivity | now rewrite IH]. Qed.

Lemma append_inv_head (p s t : string) :
  (p ++ s)%string = (p ++ t)%string -> s = t.
Proof.
  induction p as [|c p IH]; simpl; [easy|].
  intros H. injection H as H. now apply IH.
Qed.

Lemma append_inv_tail (s t q : string) :
  (s ++ q)%string = (t ++ q)%string -> s = t.
Proof.
  revert t. induction s as [|c s IH]; intros [|c' t] H; simpl in H.
  - reflexivity.
  - apply (f_equal String.length) in H. simpl in H. rewrite append_length in H. lia.
  - apply (f_equal String.length) in H. simpl in H. rewrite append_length in H. lia.
  - injection H as -> H. f_equal. now apply IH.
Qed.

(** X20: the confirmation of a delete tells which id was deleted: the id is
    written in decimal, so two confirmations are the same text only for the
    same id. *)
Theorem delete_confirmation_identifies_id :
  forall a b : Z, deleted_detail a = deleted_detail b <-> a = b.
Proof.
  intros a b. split; [|now intros ->].
  unfold deleted_detail. intros H.
  apply append_inv_head, append_inv_tail in H.
  apply (f_equal decimal) in H. rewrite !decimal_str in H. congruence.
Qed.
